(** * The quadratic simulator of tutorials/08_crafting_summary_statistics

    A shallow embedding of the four helper functions of the notebook
    ([create_t_x], [eval], [get_3_values], [get_MSE]) together with the
    fragment of NumPy they call.

    Modelling conventions.
    - Array elements are real numbers ([R]); rounding, infinities and NaN
      of binary64 are not part of the model.  Statements that depend on the
      values staying finite carry a bound on the parameters and the draws
      ([moderate]); the one exception Python raises on a float that is out
      of range, the [OverflowError] of [t ** 2], is modelled ([float_pow]).
    - An array is a value of [ndarray]: a scalar, a 1-D array or a 2-D array
      stored row by row with its column count (so that the shape [(0, k)]
      keeps [k]).  Arrays of three or more dimensions are not represented.
    - Python exceptions are the [Raise] branch of [result].
    - [np.random.RandomState] is a position in a stream of standard normal
      variates.  The stream itself, [gauss], is a parameter: a seeded
      generator reads the stream of its seed, an unseeded one reads a fresh
      stream taken from the operating system, and the count of such reads is
      the only ambient state ([world]). *)

From Stdlib Require Import List ZArith Reals Lra Lia Bool Arith.
Import ListNotations.

Local Open Scope R_scope.

(** ** Exceptions and the two monads *)

Inductive exn : Type :=
| IndexError    (* index out of bounds, too many indices *)
| ValueError    (* operands could not be broadcast, bad seed, ragged input *)
| OverflowError (* a Python float power whose result is out of range *)
| Unsupported.  (* the result would have three or more dimensions *)

Inductive result (A : Type) : Type :=
| Ok (a : A)
| Raise (e : exn).

Arguments Ok {A} a.
Arguments Raise {A} e.

Definition rbind {A B : Type} (r : result A) (k : A -> result B) : result B :=
  match r with
  | Ok a => k a
  | Raise e => Raise e
  end.

Notation "x <- e ;; k" := (rbind e (fun x => k))
  (at level 61, e at next level, right associativity).

(** Number of unseeded generators created so far. *)
Definition world : Type := nat.

(** A computation that may read operating-system entropy and may raise. *)
Definition M (A : Type) : Type := world -> result A * world.

Definition bindM {A B : Type} (m : M A) (k : A -> M B) : M B :=
  fun w =>
    match m w with
    | (Ok a, w') => k a w'
    | (Raise e, w') => (Raise e, w')
    end.

Definition liftR {A : Type} (r : result A) : M A := fun w => (r, w).

Notation "x <~ e ;; k" := (bindM e (fun x => k))
  (at level 61, e at next level, right associativity).

(** ** Arrays *)

Inductive ndarray : Type :=
| Scalar (x : R)
| Arr1 (v : list R)
| Arr2 (ncols : nat) (rows : list (list R)).

Definition shape (a : ndarray) : list nat :=
  match a with
  | Scalar _ => []
  | Arr1 v => [length v]
  | Arr2 c rows => [length rows; c]
  end.

Definition ndim (a : ndarray) : nat := length (shape a).

(** Every stored row has the declared number of columns. *)
Definition wf (a : ndarray) : bool :=
  match a with
  | Arr2 c rows => forallb (fun r => Nat.eqb (length r) c) rows
  | _ => true
  end.

(** [a.shape[k]] *)
Definition shape_at (a : ndarray) (k : nat) : result nat :=
  match nth_error (shape a) k with
  | Some n => Ok n
  | None => Raise IndexError
  end.

(** [a[np.newaxis, :]] *)
Definition newaxis_front (a : ndarray) : result ndarray :=
  match a with
  | Scalar _ => Raise IndexError
  | Arr1 v => Ok (Arr2 (length v) [v])
  | Arr2 _ _ => Raise Unsupported
  end.

(** [a[:, np.newaxis]] *)
Definition newaxis_back (a : ndarray) : result ndarray :=
  match a with
  | Scalar _ => Raise IndexError
  | Arr1 v => Ok (Arr2 1 (map (fun x => [x]) v))
  | Arr2 _ _ => Raise Unsupported
  end.

(** [a[:, k]] *)
Definition column (a : ndarray) (k : nat) : result ndarray :=
  match a with
  | Arr2 c rows =>
      if Nat.ltb k c then Ok (Arr1 (map (fun r => nth k r 0) rows))
      else Raise IndexError
  | _ => Raise IndexError
  end.

(** [np.repeat(a, n, axis=1)] *)
Definition np_repeat_axis1 (a : ndarray) (n : nat) : result ndarray :=
  match a with
  | Arr2 c rows =>
      Ok (Arr2 (c * n) (map (fun r => flat_map (fun x => repeat x n) r) rows))
  | _ => Raise ValueError
  end.

(** [np.linspace(start, stop, num)]: [num] evenly spaced samples, both ends
    included. *)
Definition linspace (start stop : R) (num : nat) : ndarray :=
  Arr1 (map (fun i => INR i * ((stop - start) / INR (num - 1)) + start)
            (seq 0 num)).

(** *** Broadcasting *)

(** The length of a broadcast axis. *)
Definition bdim (a b : nat) : result nat :=
  if Nat.eqb a b then Ok a
  else if Nat.eqb a 1 then Ok b
  else if Nat.eqb b 1 then Ok a
  else Raise ValueError.

Fixpoint zip_with {A B C : Type} (f : A -> B -> C) (la : list A) (lb : list B)
  : list C :=
  match la, lb with
  | a :: la', b :: lb' => f a b :: zip_with f la' lb'
  | _, _ => []
  end.

(** Combine two axes whose lengths passed [bdim]: an axis of length one is
    stretched along the other. *)
Definition bzip {A B C : Type} (f : A -> B -> C) (la : list A) (lb : list B)
  : list C :=
  match la, lb with
  | [a], _ => map (f a) lb
  | _, [b] => map (fun a => f a b) la
  | _, _ => zip_with f la lb
  end.

Definition binop2 (f : R -> R -> R)
  (ca : nat) (ra : list (list R)) (cb : nat) (rb : list (list R))
  : result ndarray :=
  c <- bdim ca cb ;;
  _ <- bdim (length ra) (length rb) ;;
  Ok (Arr2 c (bzip (bzip f) ra rb)).

(** An elementwise binary operator on two arrays, with NumPy's broadcasting:
    shapes are aligned on the right and a missing leading axis counts as an
    axis of length one. *)
Definition binop (f : R -> R -> R) (a b : ndarray) : result ndarray :=
  match a, b with
  | Scalar x, Scalar y => Ok (Scalar (f x y))
  | Scalar x, Arr1 w => Ok (Arr1 (map (f x) w))
  | Scalar x, Arr2 c r => Ok (Arr2 c (map (map (f x)) r))
  | Arr1 v, Scalar y => Ok (Arr1 (map (fun x => f x y) v))
  | Arr2 c r, Scalar y => Ok (Arr2 c (map (map (fun x => f x y)) r))
  | Arr1 v, Arr1 w =>
      _ <- bdim (length v) (length w) ;;
      Ok (Arr1 (bzip f v w))
  | Arr1 v, Arr2 c r => binop2 f (length v) [v] c r
  | Arr2 c r, Arr1 w => binop2 f c r (length w) [w]
  | Arr2 ca ra, Arr2 cb rb => binop2 f ca ra cb rb
  end.

Definition np_add : ndarray -> ndarray -> result ndarray := binop Rplus.
Definition np_sub : ndarray -> ndarray -> result ndarray := binop Rminus.
Definition np_mul : ndarray -> ndarray -> result ndarray := binop Rmult.

Definition map_array (f : R -> R) (a : ndarray) : ndarray :=
  match a with
  | Scalar x => Scalar (f x)
  | Arr1 v => Arr1 (map f v)
  | Arr2 c r => Arr2 c (map (map f) r)
  end.

(** [a ** n] for a Python integer [n >= 0] *)
Definition np_pow (a : ndarray) (n : nat) : ndarray :=
  map_array (fun x => x ^ n) a.

(** The least magnitude that binary64 rounds to infinity: half an ulp above
    the largest finite number, [2^1024 - 2^970]. *)
Definition float_pow_overflow : R := 2 ^ 1024 - 2 ^ 970.

(** [t ** n] for a Python float [t] and a Python integer [n >= 0]: unlike the
    array power, the scalar power raises when its result is out of range. *)
Definition float_pow (t : R) (n : nat) : result R :=
  if Rlt_dec (Rabs (t ^ n)) float_pow_overflow then Ok (t ^ n)
  else Raise OverflowError.

(** [np.square(a)] *)
Definition np_square (a : ndarray) : ndarray := map_array (fun x => x * x) a.

Definition Rsum (l : list R) : R := fold_right Rplus 0 l.

(** [np.mean(a, axis=0, keepdims=True)] *)
Definition np_mean_axis0_keepdims (a : ndarray) : result ndarray :=
  match a with
  | Scalar _ => Raise ValueError
  | Arr1 v => Ok (Arr1 [Rsum v / INR (length v)])
  | Arr2 c rows =>
      Ok (Arr2 c
            [map (fun j => Rsum (map (fun r => nth j r 0) rows)
                           / INR (length rows))
                 (seq 0 c)])
  end.

(** [a.T] *)
Definition transpose (a : ndarray) : ndarray :=
  match a with
  | Arr2 c rows =>
      Arr2 (length rows)
           (map (fun j => map (fun r => nth j r 0) rows) (seq 0 c))
  | _ => a
  end.

Definition as_scalar (a : ndarray) : option R :=
  match a with Scalar x => Some x | _ => None end.

Definition as_arr1 (a : ndarray) : option (list R) :=
  match a with Arr1 v => Some v | _ => None end.

Fixpoint all_some {A : Type} (l : list (option A)) : option (list A) :=
  match l with
  | [] => Some []
  | Some a :: l' =>
      match all_some l' with Some r => Some (a :: r) | None => None end
  | None :: _ => None
  end.

Definition has_arr2 (a : ndarray) : bool :=
  match a with Arr2 _ _ => true | _ => false end.

(** [np.array([a0, a1, ...])] on a list of arrays: scalars give a 1-D array,
    1-D arrays of one common length are stacked as the rows of a 2-D array,
    and ragged input is refused. *)
Definition np_array (l : list ndarray) : result ndarray :=
  if existsb has_arr2 l then Raise Unsupported
  else
    match all_some (map as_scalar l) with
    | Some xs => Ok (Arr1 xs)
    | None =>
        match all_some (map as_arr1 l) with
        | Some (v :: vs) =>
            if forallb (fun w => Nat.eqb (length w) (length v)) vs
            then Ok (Arr2 (length v) (v :: vs))
            else Raise ValueError
        | _ => Raise ValueError
        end
    end.

(** [np.concatenate((a, b), axis=1)]: two 2-D arrays with the same number of
    rows are joined row by row; anything else is refused. *)
Definition np_concatenate_axis1 (a b : ndarray) : result ndarray :=
  match a, b with
  | Arr2 ca ra, Arr2 cb rb =>
      if Nat.eqb (length ra) (length rb)
      then Ok (Arr2 (ca + cb) (zip_with (@app R) ra rb))
      else Raise ValueError
  | _, _ => Raise ValueError
  end.

(** ** The random generator *)

(** Where a generator's stream comes from: an integer seed, or the [k]-th read
    of operating-system entropy. *)
Inductive source : Type :=
| Seeded (s : Z)
| Entropy (k : nat).

(** One draw: a position in the stream of a source. *)
Definition draw : Type := (source * nat)%type.

Record RandomState : Type := { src : source; pos : nat }.

(** [np.random.RandomState(seed) if seed is not None else
    np.random.RandomState()].  An integer seed must fit in 32 bits. *)
Definition new_RandomState (seed : option Z) : M RandomState :=
  fun w =>
    match seed with
    | Some s =>
        if ((0 <=? s) && (s <? 2 ^ 32))%Z
        then (Ok {| src := Seeded s; pos := 0 |}, w)
        else (Raise ValueError, w)
    | None => (Ok {| src := Entropy w; pos := 0 |}, S w)
    end.

Definition advance (rng : RandomState) (n : nat) : RandomState :=
  {| src := src rng; pos := (pos rng + n)%nat |}.

Section Simulator.

(** [gauss s k] is the [k]-th standard normal variate produced by a generator
    initialised from [s]. *)
Variable gauss : source -> nat -> R.

(** [rng.randn(d0)] *)
Definition randn1 (rng : RandomState) (d0 : nat) : ndarray * RandomState :=
  (Arr1 (map (fun j => gauss (src rng) (pos rng + j)) (seq 0 d0)),
   advance rng d0).

(** [rng.randn(d0, d1)]: filled row by row from consecutive draws. *)
Definition randn2 (rng : RandomState) (d0 d1 : nat) : ndarray * RandomState :=
  (Arr2 d1
     (map (fun i =>
             map (fun j => gauss (src rng) (pos rng + i * d1 + j)) (seq 0 d1))
          (seq 0 d0)),
   advance rng (d0 * d1)).

(** ** The notebook's functions *)

(** [theta[np.newaxis, :]] when [theta.ndim == 1]. *)
Definition as_batch (theta : ndarray) : result ndarray :=
  if Nat.eqb (ndim theta) 1 then newaxis_front theta else Ok theta.

Definition create_t_x (theta : ndarray) (seed : option Z)
  : M (ndarray * ndarray) :=
  theta <~ liftR (as_batch theta) ;;
  rng <~ new_RandomState seed ;;
  liftR (
    let t := linspace (-1) 1 200 in
    tcol <- newaxis_back t ;;
    n <- shape_at theta 0 ;;
    ts <- np_repeat_axis1 tcol n ;;
    a <- column theta 0 ;;
    at2 <- np_mul a (np_pow ts 2) ;;
    b <- column theta 1 ;;
    bt <- np_mul b ts ;;
    s1 <- np_add at2 bt ;;
    c <- column theta 2 ;;
    s2 <- np_add s1 c ;;
    d0 <- shape_at ts 0 ;;
    d1 <- shape_at theta 0 ;;
    noise <- np_mul (Scalar 0.01) (fst (randn2 rng d0 d1)) ;;
    x <- np_add s2 noise ;;
    Ok (t, x)).

Definition eval (theta : ndarray) (t : R) (seed : option Z) : M ndarray :=
  theta <~ liftR (as_batch theta) ;;
  rng <~ new_RandomState seed ;;
  liftR (
    a <- column theta 0 ;;
    t2 <- float_pow t 2 ;;
    at2 <- np_mul a (Scalar t2) ;;
    b <- column theta 1 ;;
    bt <- np_mul b (Scalar t) ;;
    s1 <- np_add at2 bt ;;
    c <- column theta 2 ;;
    s2 <- np_add s1 c ;;
    noise <- np_mul (Scalar 0.01) (fst (randn1 rng 1)) ;;
    np_add s2 noise).

Definition get_3_values (theta : ndarray) (seed : option Z) : M ndarray :=
  e0 <~ eval theta (-0.5) seed ;;
  e1 <~ eval theta 0 seed ;;
  e2 <~ eval theta 0.75 seed ;;
  liftR (
    stacked <- np_array [e0; e1; e2] ;;
    Ok (transpose stacked)).

Definition get_MSE (theta theta_o : ndarray) (seed : option Z) : M ndarray :=
  tx <~ create_t_x theta_o seed ;;
  tx_ <~ create_t_x theta seed ;;
  liftR (
    diff <- np_sub (snd tx_) (snd tx) ;;
    m <- np_mean_axis0_keepdims (np_square diff) ;;
    Ok (transpose m)).

End Simulator.

(** ** The cell that gathers the four statistics *)

Section StatisticsCell.

Variable gauss : source -> nat -> R.

(** [theta_o = np.array([0.3, -0.2, -0.1])] *)
Definition theta_o : ndarray := Arr1 [0.3; -0.2; -0.1].

(** [stats = np.concatenate((get_3_values(theta), get_MSE(theta, theta_o)),
    axis=1)], as a function of the batch [theta] the cell reads. *)
Definition stats (theta : ndarray) : M ndarray :=
  s3 <~ get_3_values gauss theta None ;;
  mse <~ get_MSE gauss theta theta_o None ;;
  liftR (np_concatenate_axis1 s3 mse).

End StatisticsCell.

(** ** Vocabulary of the statements *)

(** Arrays given by their entries. *)
Definition tab1 {A : Type} (n : nat) (f : nat -> A) : list A :=
  map f (seq 0 n).

Definition tab2 {A : Type} (n m : nat) (f : nat -> nat -> A) : list (list A) :=
  tab1 n (fun i => tab1 m (f i)).

(** Entry [(j, k)] of a list of rows. *)
Definition entry (rows : list (list R)) (j k : nat) : R :=
  nth k (nth j rows []) 0.

(** The [i]-th point of [np.linspace(-1, 1, 200)]. *)
Definition grid (i : nat) : R := INR i * ((1 - -1) / INR (200 - 1)) + -1.

(** The noiseless quadratic of the [j]-th row of a batch at time [t]. *)
Definition quad (rows : list (list R)) (j : nat) (t : R) : R :=
  entry rows j 0 * t ^ 2 + entry rows j 1 * t + entry rows j 2.

(** A parameter triple [(a, b, c)] as a row, and a batch of triples as a 2-D
    array of shape [(N, 3)]. *)
Definition triple_row (p : R * R * R) : list R :=
  let '(a, b, c) := p in [a; b; c].

Definition batch_of (thetas : list (R * R * R)) : ndarray :=
  Arr2 3 (map triple_row thetas).

(** [a*t^2 + b*t + c] for a triple. *)
Definition quad3 (p : R * R * R) (t : R) : R :=
  let '(a, b, c) := p in a * t ^ 2 + b * t + c.

(** A seed the generator accepts: [None], or an integer that fits 32 bits. *)
Definition seed_ok (seed : option Z) : bool :=
  match seed with
  | Some s => ((0 <=? s) && (s <? 2 ^ 32))%Z
  | None => true
  end.

(** The stream a generator built from [seed] in world [w] reads. *)
Definition source_of (seed : option Z) (w : world) : source :=
  match seed with
  | Some s => Seeded s
  | None => Entropy w
  end.

(** The world after one generator was built from [seed]. *)
Definition world_after (seed : option Z) (w : world) : world :=
  match seed with
  | Some _ => w
  | None => S w
  end.

Definition raises {A : Type} (r : result A) : bool :=
  match r with
  | Ok _ => false
  | Raise _ => true
  end.

(** The length of the last axis of a parameter array. *)
Definition inner_dim (theta : ndarray) : option nat :=
  match theta with
  | Scalar _ => None
  | Arr1 v => Some (length v)
  | Arr2 c _ => Some c
  end.

(** The array that keeps only the first three entries along the last axis. *)
Definition first_three (theta : ndarray) : ndarray :=
  match theta with
  | Scalar x => Scalar x
  | Arr1 v => Arr1 (firstn 3 v)
  | Arr2 _ rows => Arr2 3 (map (firstn 3) rows)
  end.


Definition source_eqb (a b : source) : bool :=
  match a, b with
  | Seeded s, Seeded s' => Z.eqb s s'
  | Entropy k, Entropy k' => Nat.eqb k k'
  | _, _ => false
  end.

Definition draw_eqb (d d' : draw) : bool :=
  source_eqb (fst d) (fst d') && Nat.eqb (snd d) (snd d').

(** The generator stream that is [1] at the draw [d] and [0] elsewhere. *)
Definition only_at (d : draw) : source -> nat -> R :=
  fun s k => if draw_eqb (s, k) d then 1 else 0.

(** The three columns of the coordinate statistic of a seeded call carry
    three pairwise different draws [d0], [d1], [d2], whatever the stream. *)
Definition columns_have_own_draws (rows : list (list R)) (s : Z) : Prop :=
  exists d0 d1 d2 : draw,
    d0 <> d1 /\ d0 <> d2 /\ d1 <> d2 /\
    forall (gauss : source -> nat -> R) (w : world),
      fst (get_3_values gauss (Arr2 3 rows) (Some s) w)
      = Ok (Arr2 3
              (tab1 (length rows)
                 (fun j =>
                    [quad rows j (-0.5) + 0.01 * gauss (fst d0) (snd d0);
                     quad rows j 0 + 0.01 * gauss (fst d1) (snd d1);
                     quad rows j 0.75 + 0.01 * gauss (fst d2) (snd d2)]))).

(** A magnitude far from the overflow of binary64: sums and squares of a few
    hundred such numbers stay finite. *)
Definition moderate (x : R) : Prop := Rabs x <= 10 ^ 100.

Definition moderate_triple (p : R * R * R) : Prop :=
  let '(a, b, c) := p in moderate a /\ moderate b /\ moderate c.

(** Every draw of the stream is moderate, as the draws of [randn] are. *)
Definition moderate_stream (gauss : source -> nat -> R) : Prop :=
  forall (s : source) (k : nat), moderate (gauss s k).

(** A concrete stream for examples: the [k]-th draw of every source is [k]. *)
Definition ramp : source -> nat -> R := fun _ k => INR k.

(** A concrete moderate stream: the draws alternate between [1] and [-1]. *)
Definition flip : source -> nat -> R :=
  fun _ k => if Nat.even k then 1 else -1.

(** The three coordinates of a triple, each with its own noise term. *)
Definition coordinates (n0 n1 n2 : R) (p : R * R * R) : list R :=
  [quad3 p (-0.5) + n0; quad3 p 0 + n1; quad3 p 0.75 + n2].

(** ** Lists given by their entries *)

Lemma length_tab1 {A : Type} (n : nat) (f : nat -> A) :
  length (tab1 n f) = n.
Proof. unfold tab1. now rewrite length_map, length_seq. Qed.

Lemma nth_tab1 {A : Type} (n : nat) (f : nat -> A) (i : nat) (d : A) :
  (i < n)%nat -> nth i (tab1 n f) d = f i.
Proof.
  intros Hi. unfold tab1.
  rewrite (nth_indep _ d (f 0%nat)) by (now rewrite length_map, length_seq).
  rewrite (map_nth f (seq 0 n) 0%nat i), seq_nth by assumption.
  reflexivity.
Qed.

Lemma tab1_ext {A : Type} (n : nat) (f g : nat -> A) :
  (forall i, (i < n)%nat -> f i = g i) -> tab1 n f = tab1 n g.
Proof.
  intros H. unfold tab1. apply map_ext_in.
  intros i Hi. apply in_seq in Hi. apply H. lia.
Qed.

Lemma tab2_ext {A : Type} (n m : nat) (f g : nat -> nat -> A) :
  (forall i j, (i < n)%nat -> (j < m)%nat -> f i j = g i j) ->
  tab2 n m f = tab2 n m g.
Proof.
  intros H. unfold tab2. apply tab1_ext.
  intros i Hi. apply tab1_ext. intros j Hj. now apply H.
Qed.

Lemma map_tab1 {A B : Type} (g : A -> B) (n : nat) (f : nat -> A) :
  map g (tab1 n f) = tab1 n (fun i => g (f i)).
Proof. unfold tab1. now rewrite map_map. Qed.

Lemma map_as_tab1 {A B : Type} (g : A -> B) (l : list A) (d : A) :
  map g l = tab1 (length l) (fun j => g (nth j l d)).
Proof.
  apply (nth_ext _ _ (g d) (g d)).
  - now rewrite length_map, length_tab1.
  - intros i Hi. rewrite length_map in Hi.
    rewrite nth_tab1 by assumption. apply map_nth.
Qed.

Lemma repeat_tab1 {A : Type} (x : A) (n : nat) :
  repeat x n = tab1 n (fun _ => x).
Proof.
  apply (nth_ext _ _ x x).
  - now rewrite repeat_length, length_tab1.
  - intros i Hi. rewrite repeat_length in Hi.
    rewrite nth_tab1 by assumption. apply nth_repeat.
Qed.

Lemma length_tab2 {A : Type} (n m : nat) (f : nat -> nat -> A) :
  length (tab2 n m f) = n.
Proof. apply length_tab1. Qed.

Lemma nth_tab2 {A : Type} (n m : nat) (f : nat -> nat -> A) (i : nat) :
  (i < n)%nat -> nth i (tab2 n m f) [] = tab1 m (f i).
Proof. intros Hi. unfold tab2. now rewrite nth_tab1. Qed.

Lemma entry_tab2 (n m : nat) (f : nat -> nat -> R) (i j : nat) :
  (i < n)%nat -> (j < m)%nat -> entry (tab2 n m f) i j = f i j.
Proof.
  intros Hi Hj. unfold entry.
  rewrite nth_tab2 by assumption. now apply nth_tab1.
Qed.

Lemma wf_tab2 (n m : nat) (f : nat -> nat -> R) :
  wf (Arr2 m (tab2 n m f)) = true.
Proof.
  cbn [wf]. apply forallb_forall. intros r Hr.
  unfold tab2, tab1 in Hr. apply in_map_iff in Hr.
  destruct Hr as [i [<- _]]. fold (tab1 m (f i)).
  rewrite length_tab1. apply Nat.eqb_refl.
Qed.

(** ** Broadcasting on arrays given by their entries *)

Lemma zip_with_map {A B C D : Type} (f : B -> C -> D)
  (g : A -> B) (h : A -> C) (l : list A) :
  zip_with f (map g l) (map h l) = map (fun x => f (g x) (h x)) l.
Proof. induction l as [|x l IH]; cbn; [reflexivity | now rewrite IH]. Qed.

Lemma bzip_same_length {A B C : Type} (f : A -> B -> C)
  (la : list A) (lb : list B) :
  length la = length lb -> bzip f la lb = zip_with f la lb.
Proof.
  destruct la as [|a [|a' la]], lb as [|b [|b' lb]];
    cbn; intros H; try reflexivity; discriminate.
Qed.

Lemma bzip_tab1 {A B C : Type} (f : A -> B -> C) (n : nat)
  (g : nat -> A) (h : nat -> B) :
  bzip f (tab1 n g) (tab1 n h) = tab1 n (fun i => f (g i) (h i)).
Proof.
  rewrite bzip_same_length by now rewrite !length_tab1.
  apply zip_with_map.
Qed.

Lemma bzip_one_r {A B C : Type} (f : A -> B -> C) (la : list A) (b : B) :
  bzip f la [b] = map (fun a => f a b) la.
Proof. destruct la as [|a [|a' la]]; reflexivity. Qed.

Lemma bdim_same (n : nat) : bdim n n = Ok n.
Proof. unfold bdim. now rewrite Nat.eqb_refl. Qed.

Lemma bdim_one_l (n : nat) : bdim 1 n = Ok n.
Proof.
  unfold bdim. destruct (Nat.eqb_spec 1 n) as [<-|]; reflexivity.
Qed.

Lemma bdim_one_r (n : nat) : bdim n 1 = Ok n.
Proof.
  unfold bdim. destruct (Nat.eqb n 1); reflexivity.
Qed.

Lemma binop_row_matrix (f : R -> R -> R) (n m : nat)
  (g : nat -> R) (h : nat -> nat -> R) :
  binop f (Arr1 (tab1 m g)) (Arr2 m (tab2 n m h))
  = Ok (Arr2 m (tab2 n m (fun i j => f (g j) (h i j)))).
Proof.
  cbn [binop]. unfold binop2.
  rewrite length_tab1, bdim_same. cbn [rbind length].
  rewrite bdim_one_l. cbn [rbind bzip].
  do 2 f_equal. unfold tab2. rewrite map_tab1.
  apply tab1_ext. intros i _. apply bzip_tab1.
Qed.

Lemma binop_matrix_row (f : R -> R -> R) (n m : nat)
  (g : nat -> nat -> R) (h : nat -> R) :
  binop f (Arr2 m (tab2 n m g)) (Arr1 (tab1 m h))
  = Ok (Arr2 m (tab2 n m (fun i j => f (g i j) (h j)))).
Proof.
  cbn [binop]. unfold binop2.
  rewrite length_tab1, bdim_same. cbn [rbind length].
  rewrite bdim_one_r. cbn [rbind].
  do 2 f_equal. rewrite bzip_one_r. unfold tab2. rewrite map_tab1.
  apply tab1_ext. intros i _. apply bzip_tab1.
Qed.

Lemma binop_matrix_matrix (f : R -> R -> R) (n m : nat)
  (g h : nat -> nat -> R) :
  binop f (Arr2 m (tab2 n m g)) (Arr2 m (tab2 n m h))
  = Ok (Arr2 m (tab2 n m (fun i j => f (g i j) (h i j)))).
Proof.
  cbn [binop]. unfold binop2.
  rewrite bdim_same, !length_tab2, bdim_same. cbn [rbind].
  do 2 f_equal. unfold tab2. rewrite bzip_tab1.
  apply tab1_ext. intros i _. apply bzip_tab1.
Qed.

Lemma binop_matrix_column (f : R -> R -> R) (n m : nat)
  (g h : nat -> nat -> R) :
  binop f (Arr2 m (tab2 n m g)) (Arr2 1 (tab2 n 1 h))
  = Ok (Arr2 m (tab2 n m (fun i j => f (g i j) (h i 0%nat)))).
Proof.
  cbn [binop]. unfold binop2.
  rewrite bdim_one_r, !length_tab2, bdim_same. cbn [rbind].
  do 2 f_equal. unfold tab2. rewrite bzip_tab1.
  apply tab1_ext. intros i _.
  change (tab1 1 (h i)) with [h i 0%nat].
  rewrite bzip_one_r. apply map_tab1.
Qed.

Lemma binop_scalar_matrix (f : R -> R -> R) (x : R) (n m : nat)
  (h : nat -> nat -> R) :
  binop f (Scalar x) (Arr2 m (tab2 n m h))
  = Ok (Arr2 m (tab2 n m (fun i j => f x (h i j)))).
Proof.
  cbn [binop]. do 2 f_equal. unfold tab2. rewrite map_tab1.
  apply tab1_ext. intros i _. apply map_tab1.
Qed.

Lemma map_array_tab2 (f : R -> R) (n m : nat) (h : nat -> nat -> R) :
  map_array f (Arr2 m (tab2 n m h)) = Arr2 m (tab2 n m (fun i j => f (h i j))).
Proof.
  cbn [map_array]. f_equal. unfold tab2. rewrite map_tab1.
  apply tab1_ext. intros i _. apply map_tab1.
Qed.

Lemma binop_vector_scalar (f : R -> R -> R) (n : nat) (g : nat -> R) (y : R) :
  binop f (Arr1 (tab1 n g)) (Scalar y) = Ok (Arr1 (tab1 n (fun j => f (g j) y))).
Proof. cbn [binop]. now rewrite map_tab1. Qed.

Lemma binop_vector_vector (f : R -> R -> R) (n : nat) (g h : nat -> R) :
  binop f (Arr1 (tab1 n g)) (Arr1 (tab1 n h))
  = Ok (Arr1 (tab1 n (fun j => f (g j) (h j)))).
Proof.
  cbn [binop]. rewrite !length_tab1, bdim_same. cbn [rbind].
  now rewrite bzip_tab1.
Qed.

Lemma binop_vector_single (f : R -> R -> R) (n : nat) (g : nat -> R) (y : R) :
  binop f (Arr1 (tab1 n g)) (Arr1 [y])
  = Ok (Arr1 (tab1 n (fun j => f (g j) y))).
Proof.
  cbn [binop]. rewrite length_tab1. cbn [length].
  rewrite bdim_one_r. cbn [rbind].
  now rewrite bzip_one_r, map_tab1.
Qed.

Lemma binop_scalar_single (f : R -> R -> R) (x y : R) :
  binop f (Scalar x) (Arr1 [y]) = Ok (Arr1 [f x y]).
Proof. reflexivity. Qed.

Lemma column_of_tab2 (n m : nat) (h : nat -> nat -> R) (j : nat) :
  (j < m)%nat ->
  map (fun r => nth j r 0) (tab2 n m h) = tab1 n (fun i => h i j).
Proof.
  intros Hj. unfold tab2. rewrite map_tab1.
  apply tab1_ext. intros i _. now apply nth_tab1.
Qed.

Lemma mean_tab2 (n m : nat) (h : nat -> nat -> R) :
  np_mean_axis0_keepdims (Arr2 m (tab2 n m h))
  = Ok (Arr2 m [tab1 m (fun j => Rsum (tab1 n (fun i => h i j)) / INR n)]).
Proof.
  cbn [np_mean_axis0_keepdims]. rewrite length_tab2.
  do 3 f_equal. apply tab1_ext. intros j Hj.
  now rewrite column_of_tab2.
Qed.

Lemma transpose_single_row (m : nat) (g : nat -> R) :
  transpose (Arr2 m [tab1 m g]) = Arr2 1 (tab1 m (fun j => [g j])).
Proof.
  cbn [transpose length]. f_equal.
  apply tab1_ext. intros j Hj. cbn [map]. now rewrite nth_tab1.
Qed.

Lemma np_array_three (v0 v1 v2 : list R) :
  length v1 = length v0 -> length v2 = length v0 ->
  np_array [Arr1 v0; Arr1 v1; Arr1 v2] = Ok (Arr2 (length v0) [v0; v1; v2]).
Proof.
  intros H1 H2. unfold np_array.
  cbn [existsb has_arr2 orb map as_scalar as_arr1 all_some forallb].
  now rewrite H1, H2, Nat.eqb_refl.
Qed.

Lemma transpose_three_rows (n : nat) (g0 g1 g2 : nat -> R) :
  transpose (Arr2 n [tab1 n g0; tab1 n g1; tab1 n g2])
  = Arr2 3 (tab1 n (fun j => [g0 j; g1 j; g2 j])).
Proof.
  cbn [transpose length]. f_equal.
  apply tab1_ext. intros j Hj. cbn [map]. now rewrite !nth_tab1.
Qed.


Lemma Rsum_zero (l : list R) :
  Forall (fun x => x = 0) l -> Rsum l = 0.
Proof.
  unfold Rsum. induction 1 as [|x l Hx _ IH]; cbn [fold_right]; lra.
Qed.

Lemma Forall_tab1 {A : Type} (P : A -> Prop) (n : nat) (f : nat -> A) :
  (forall i, (i < n)%nat -> P (f i)) -> Forall P (tab1 n f).
Proof.
  intros H. apply Forall_forall. intros x Hx.
  unfold tab1 in Hx. apply in_map_iff in Hx.
  destruct Hx as [i [<- Hi]]. apply in_seq in Hi. apply H. lia.
Qed.

Lemma wf_rows_of_length (c n : nat) (f : nat -> list R) :
  (forall j, length (f j) = c) -> wf (Arr2 c (tab1 n f)) = true.
Proof.
  intros H. cbn [wf]. apply forallb_forall. intros r Hr.
  unfold tab1 in Hr. apply in_map_iff in Hr.
  destruct Hr as [j [<- _]]. rewrite H. apply Nat.eqb_refl.
Qed.

Lemma tab1_one {A : Type} (f : nat -> A) : tab1 1 f = [f 0%nat].
Proof. reflexivity. Qed.

(** ** Column access *)

Lemma column_ok (c : nat) (rows : list (list R)) (k : nat) :
  (k < c)%nat ->
  column (Arr2 c rows) k
  = Ok (Arr1 (tab1 (length rows) (fun j => entry rows j k))).
Proof.
  intros Hk. cbn [column].
  destruct (Nat.ltb_spec k c) as [_|]; [|lia].
  do 2 f_equal. apply (map_as_tab1 (fun r => nth k r 0) rows []).
Qed.

Lemma column_bad (c : nat) (rows : list (list R)) (k : nat) :
  (c <= k)%nat -> column (Arr2 c rows) k = Raise IndexError.
Proof.
  intros Hk. cbn [column].
  destruct (Nat.ltb_spec k c) as [|_]; [lia | reflexivity].
Qed.

Lemma entry_first_three (rows : list (list R)) (j k : nat) :
  (k < 3)%nat -> entry (map (firstn 3) rows) j k = entry rows j k.
Proof.
  intros Hk. unfold entry.
  change (@nil R) with (firstn 3 (@nil R)) at 1.
  rewrite map_nth, nth_firstn.
  destruct (Nat.ltb_spec k 3) as [_|]; [reflexivity | lia].
Qed.

Lemma quad_first_three (rows : list (list R)) (j : nat) (t : R) :
  quad (map (firstn 3) rows) j t = quad rows j t.
Proof. unfold quad. now rewrite !entry_first_three by lia. Qed.

Lemma entry_triples (thetas : list (R * R * R)) (j : nat) :
  (j < length thetas)%nat ->
  nth j (map triple_row thetas) [] = triple_row (nth j thetas (0, 0, 0)).
Proof.
  intros Hj.
  rewrite (nth_indep _ [] (triple_row (0, 0, 0)))
    by now rewrite length_map.
  apply map_nth.
Qed.

Lemma quad_triples (thetas : list (R * R * R)) (j : nat) (t : R) :
  (j < length thetas)%nat ->
  quad (map triple_row thetas) j t = quad3 (nth j thetas (0, 0, 0)) t.
Proof.
  intros Hj. unfold quad, entry. rewrite entry_triples by assumption.
  destruct (nth j thetas (0, 0, 0)) as [[a b] c]. reflexivity.
Qed.

Lemma source_eqb_eq (a b : source) : source_eqb a b = true <-> a = b.
Proof.
  destruct a as [s|k], b as [s'|k']; cbn; split; intros H;
    try discriminate; try congruence.
  - apply Z.eqb_eq in H. now subst.
  - injection H as ->. apply Z.eqb_refl.
  - apply Nat.eqb_eq in H. now subst.
  - injection H as ->. apply Nat.eqb_refl.
Qed.

Lemma draw_eqb_eq (d d' : draw) : draw_eqb d d' = true <-> d = d'.
Proof.
  destruct d as [a k], d' as [a' k']. unfold draw_eqb. cbn [fst snd].
  rewrite andb_true_iff, source_eqb_eq, Nat.eqb_eq.
  split; [intros [-> ->]; reflexivity | intros H; now injection H].
Qed.

Lemma only_at_same (d : draw) : only_at d (fst d) (snd d) = 1.
Proof.
  unfold only_at. rewrite <- surjective_pairing.
  now rewrite (proj2 (draw_eqb_eq d d) eq_refl).
Qed.

Lemma only_at_other (d d' : draw) : d' <> d -> only_at d (fst d') (snd d') = 0.
Proof.
  intros Hd. unfold only_at. rewrite <- surjective_pairing.
  destruct (draw_eqb d' d) eqn:E; [|reflexivity].
  apply draw_eqb_eq in E. contradiction.
Qed.

(** ** The scalar power *)

Lemma float_pow_overflow_IZR :
  float_pow_overflow = IZR (2 ^ 1024 - 2 ^ 970).
Proof.
  unfold float_pow_overflow. rewrite minus_IZR, !pow_IZR. reflexivity.
Qed.

Lemma ten_pow_308_in_range : 10 ^ 308 < float_pow_overflow.
Proof.
  rewrite float_pow_overflow_IZR, pow_IZR.
  apply IZR_lt. vm_compute. reflexivity.
Qed.

Lemma float_pow_cases (t : R) (n : nat) :
  float_pow t n = Ok (t ^ n) \/ float_pow t n = Raise OverflowError.
Proof.
  unfold float_pow. destruct (Rlt_dec _ _); [left | right]; reflexivity.
Qed.

Lemma float_pow_in_range (t : R) :
  Rabs t <= 10 ^ 154 -> float_pow t 2 = Ok (t ^ 2).
Proof.
  intros Ht. unfold float_pow.
  destruct (Rlt_dec _ _) as [_|H]; [reflexivity|].
  exfalso. apply H. rewrite <- RPow_abs.
  apply Rle_lt_trans with ((10 ^ 154) ^ 2).
  - apply pow_incr. split; [apply Rabs_pos | assumption].
  - rewrite <- pow_mult. exact ten_pow_308_in_range.
Qed.

Lemma float_pow_out_of_range (t : R) :
  2 ^ 512 <= Rabs t -> float_pow t 2 = Raise OverflowError.
Proof.
  intros Ht. unfold float_pow.
  destruct (Rlt_dec _ _) as [H|_]; [|reflexivity].
  exfalso. rewrite <- RPow_abs in H.
  assert (H2 : (2 ^ 512) ^ 2 <= Rabs t ^ 2).
  { apply pow_incr. split; [apply pow_le; lra | assumption]. }
  rewrite <- pow_mult in H2.
  change (512 * 2)%nat with 1024%nat in H2.
  unfold float_pow_overflow in H.
  assert (0 < 2 ^ 970) by (apply pow_lt; lra).
  lra.
Qed.

Lemma float_pow_unit (t : R) : -1 <= t <= 1 -> float_pow t 2 = Ok (t ^ 2).
Proof.
  intros Ht. apply float_pow_in_range.
  apply Rle_trans with 1; [apply Rabs_le; lra | apply pow_R1_Rle; lra].
Qed.

(** ** The generator *)

Lemma new_RandomState_ok (seed : option Z) (w : world) :
  seed_ok seed = true ->
  new_RandomState seed w
  = (Ok {| src := source_of seed w; pos := 0 |}, world_after seed w).
Proof.
  unfold seed_ok, new_RandomState, source_of, world_after.
  destruct seed as [s|]; intros H; [now rewrite H | reflexivity].
Qed.

Lemma new_RandomState_bad (s : Z) (w : world) :
  seed_ok (Some s) = false ->
  new_RandomState (Some s) w = (Raise ValueError, w).
Proof. unfold seed_ok, new_RandomState. now intros ->. Qed.

(** A seeded generator never touches the ambient state. *)
Lemma new_RandomState_seeded (s : Z) (w : world) :
  new_RandomState (Some s) w = (fst (new_RandomState (Some s) 0%nat), w).
Proof.
  unfold new_RandomState.
  now destruct ((0 <=? s) && (s <? 2 ^ 32))%Z.
Qed.

(** ** The time grid *)

Lemma linspace_grid : linspace (-1) 1 200 = Arr1 (tab1 200 grid).
Proof. reflexivity. Qed.

Lemma grid_closed_form (i : nat) : grid i = -1 + INR i * (2 / 199).
Proof.
  unfold grid.
  replace (INR (200 - 1)) with 199
    by (change (200 - 1)%nat with 199%nat; rewrite INR_IZR_INZ; simpl;
        reflexivity).
  lra.
Qed.

Lemma time_column (n : nat) :
  (tcol <- newaxis_back (Arr1 (tab1 200 grid)) ;; np_repeat_axis1 tcol n)
  = Ok (Arr2 n (tab2 200 n (fun i _ => grid i))).
Proof.
  cbn [newaxis_back rbind np_repeat_axis1].
  rewrite Nat.mul_1_l. do 2 f_equal.
  unfold tab2. rewrite !map_tab1. apply tab1_ext. intros i _.
  cbn [flat_map]. rewrite app_nil_r. apply repeat_tab1.
Qed.

Section SimulatorFacts.

Variable gauss : source -> nat -> R.

(** ** The trace generator on a 2-D batch *)

Lemma create_t_x_rows (c : nat) (rows : list (list R))
  (seed : option Z) (w : world) :
  (3 <= c)%nat ->
  seed_ok seed = true ->
  create_t_x gauss (Arr2 c rows) seed w
  = (Ok (linspace (-1) 1 200,
         Arr2 (length rows)
           (tab2 200 (length rows)
              (fun i j =>
                 quad rows j (grid i)
                 + 0.01 * gauss (source_of seed w) (i * length rows + j)))),
     world_after seed w).
Proof.
  intros Hc Hs. unfold create_t_x, bindM.
  change (liftR (as_batch (Arr2 c rows)) w) with (Ok (Arr2 c rows), w).
  cbv beta iota. rewrite (new_RandomState_ok _ _ Hs). cbv beta iota.
  unfold liftR. f_equal.
  rewrite linspace_grid.
  set (N := length rows).
  cbn [newaxis_back rbind shape_at shape nth_error].
  fold N.
  pose proof (time_column N) as Hts.
  cbn [newaxis_back rbind] in Hts. rewrite Hts. cbn [rbind].
  rewrite !column_ok by lia. fold N. cbn [rbind].
  unfold np_pow. rewrite map_array_tab2.
  unfold np_mul, np_add.
  rewrite binop_row_matrix. cbn [rbind].
  rewrite binop_row_matrix. cbn [rbind].
  rewrite binop_matrix_matrix. cbn [rbind].
  rewrite binop_matrix_row. cbn [rbind].
  cbn [shape_at shape nth_error rbind]. rewrite length_tab2.
  cbn [rbind randn2 fst src pos].
  change (map (fun i => map (fun j => gauss (source_of seed w) (0 + i * N + j)%nat) (seq 0 N)) (seq 0 200))
    with (tab2 200 N (fun i j => gauss (source_of seed w) (i * N + j)%nat)).
  rewrite binop_scalar_matrix. cbn [rbind].
  rewrite binop_matrix_matrix. cbn [rbind].
  reflexivity.
Qed.

(** A 1-D vector is the batch of its one row. *)
Lemma create_t_x_vector (v : list R) (seed : option Z) :
  create_t_x gauss (Arr1 v) seed = create_t_x gauss (Arr2 (length v) [v]) seed.
Proof. reflexivity. Qed.

Lemma eval_vector (v : list R) (t : R) (seed : option Z) :
  eval gauss (Arr1 v) t seed = eval gauss (Arr2 (length v) [v]) t seed.
Proof. reflexivity. Qed.

(** ** The point evaluation on a 2-D batch *)

Lemma eval_rows (c : nat) (rows : list (list R)) (t : R)
  (seed : option Z) (w : world) :
  (3 <= c)%nat ->
  seed_ok seed = true ->
  float_pow t 2 = Ok (t ^ 2) ->
  eval gauss (Arr2 c rows) t seed w
  = (Ok (Arr1 (tab1 (length rows)
                 (fun j => quad rows j t
                           + 0.01 * gauss (source_of seed w) 0%nat))),
     world_after seed w).
Proof.
  intros Hc Hs Ht. unfold eval, bindM.
  change (liftR (as_batch (Arr2 c rows)) w) with (Ok (Arr2 c rows), w).
  cbv beta iota. rewrite (new_RandomState_ok _ _ Hs). cbv beta iota.
  unfold liftR. f_equal.
  rewrite !column_ok by lia. rewrite Ht. cbn [rbind].
  unfold np_mul, np_add.
  rewrite binop_vector_scalar. cbn [rbind].
  rewrite binop_vector_scalar. cbn [rbind].
  rewrite binop_vector_vector. cbn [rbind].
  rewrite binop_vector_vector. cbn [rbind].
  cbn [randn1 fst src pos seq map Nat.add].
  rewrite binop_scalar_single. cbn [rbind].
  rewrite binop_vector_single.
  reflexivity.
Qed.

(** ** The coordinate statistic on a 2-D batch *)

Lemma get_3_values_rows (c : nat) (rows : list (list R))
  (seed : option Z) (w : world) :
  (3 <= c)%nat ->
  seed_ok seed = true ->
  let w1 := world_after seed w in
  let w2 := world_after seed w1 in
  get_3_values gauss (Arr2 c rows) seed w
  = (Ok (Arr2 3
           (tab1 (length rows)
              (fun j =>
                 [quad rows j (-0.5) + 0.01 * gauss (source_of seed w) 0%nat;
                  quad rows j 0 + 0.01 * gauss (source_of seed w1) 0%nat;
                  quad rows j 0.75 + 0.01 * gauss (source_of seed w2) 0%nat]))),
     world_after seed w2).
Proof.
  intros Hc Hs w1 w2. unfold get_3_values, bindM.
  rewrite (eval_rows _ _ _ _ w Hc Hs) by (apply float_pow_unit; lra).
  fold w1.
  rewrite (eval_rows _ _ _ _ w1 Hc Hs) by (apply float_pow_unit; lra).
  fold w2.
  rewrite (eval_rows _ _ _ _ w2 Hc Hs) by (apply float_pow_unit; lra).
  unfold liftR. f_equal.
  rewrite np_array_three by now rewrite !length_tab1.
  cbn [rbind]. rewrite length_tab1, transpose_three_rows.
  reflexivity.
Qed.

(** ** The error statistic: a 2-D batch against a reference row *)

Lemma get_MSE_rows (c co : nat) (rows : list (list R)) (ro : list R)
  (seed : option Z) (w : world) :
  (3 <= c)%nat -> (3 <= co)%nat ->
  seed_ok seed = true ->
  let w1 := world_after seed w in
  let x := fun i => quad [ro] 0 (grid i) + 0.01 * gauss (source_of seed w) i in
  let x_ := fun i j =>
    quad rows j (grid i)
    + 0.01 * gauss (source_of seed w1) (i * length rows + j) in
  get_MSE gauss (Arr2 c rows) (Arr2 co [ro]) seed w
  = (Ok (Arr2 1
           (tab1 (length rows)
              (fun j =>
                 [Rsum (tab1 200
                          (fun i => (x_ i j - x i) * (x_ i j - x i)))
                  / INR 200]))),
     world_after seed w1).
Proof.
  intros Hc Hco Hs w1 x x_. unfold get_MSE, bindM.
  rewrite (create_t_x_rows _ _ _ w Hco Hs). fold w1.
  rewrite (create_t_x_rows _ _ _ w1 Hc Hs).
  unfold liftR. f_equal. cbn [snd length].
  unfold np_sub. rewrite binop_matrix_column. cbn [rbind].
  unfold np_square. rewrite map_array_tab2, mean_tab2. cbn [rbind].
  rewrite transpose_single_row.
  apply (f_equal (fun l => Ok (Arr2 1 l))).
  apply tab1_ext. intros j Hj.
  apply (f_equal (fun s => [Rsum s / INR 200])).
  apply tab1_ext. intros i Hi. subst x x_. cbv beta.
  rewrite Nat.mul_1_r, Nat.add_0_r. reflexivity.
Qed.

(** ** Parameter arrays with too few or too many columns *)

Lemma create_t_x_few_columns (c : nat) (rows : list (list R))
  (seed : option Z) (w : world) :
  (c < 3)%nat ->
  seed_ok seed = true ->
  create_t_x gauss (Arr2 c rows) seed w
  = (Raise IndexError, world_after seed w).
Proof.
  intros Hc Hs. unfold create_t_x, bindM.
  change (liftR (as_batch (Arr2 c rows)) w) with (Ok (Arr2 c rows), w).
  cbv beta iota. rewrite (new_RandomState_ok _ _ Hs). cbv beta iota.
  unfold liftR. f_equal.
  rewrite linspace_grid.
  cbn [newaxis_back rbind shape_at shape nth_error].
  pose proof (time_column (length rows)) as Hts.
  cbn [newaxis_back rbind] in Hts. rewrite Hts. cbn [rbind].
  unfold np_pow, np_mul, np_add. rewrite map_array_tab2.
  destruct c as [|[|[|c]]]; [| | |lia].
  - rewrite column_bad by lia. reflexivity.
  - rewrite (column_ok 1 rows 0) by lia. cbn [rbind].
    rewrite binop_row_matrix. cbn [rbind].
    rewrite column_bad by lia. reflexivity.
  - rewrite (column_ok 2 rows 0), (column_ok 2 rows 1) by lia. cbn [rbind].
    rewrite binop_row_matrix. cbn [rbind].
    rewrite binop_row_matrix. cbn [rbind].
    rewrite binop_matrix_matrix. cbn [rbind].
    rewrite column_bad by lia. reflexivity.
Qed.

Lemma eval_few_columns (c : nat) (rows : list (list R)) (t : R)
  (seed : option Z) (w : world) :
  (c < 3)%nat ->
  seed_ok seed = true ->
  float_pow t 2 = Ok (t ^ 2) ->
  eval gauss (Arr2 c rows) t seed w = (Raise IndexError, world_after seed w).
Proof.
  intros Hc Hs Ht. unfold eval, bindM.
  change (liftR (as_batch (Arr2 c rows)) w) with (Ok (Arr2 c rows), w).
  cbv beta iota. rewrite (new_RandomState_ok _ _ Hs). cbv beta iota.
  unfold liftR. f_equal.
  unfold np_mul, np_add.
  destruct c as [|[|[|c]]]; [| | |lia].
  - rewrite column_bad by lia. reflexivity.
  - rewrite (column_ok 1 rows 0) by lia. rewrite Ht. cbn [rbind].
    rewrite binop_vector_scalar. cbn [rbind].
    rewrite column_bad by lia. reflexivity.
  - rewrite (column_ok 2 rows 0), (column_ok 2 rows 1) by lia.
    rewrite Ht. cbn [rbind].
    rewrite binop_vector_scalar. cbn [rbind].
    rewrite binop_vector_scalar. cbn [rbind].
    rewrite binop_vector_vector. cbn [rbind].
    rewrite column_bad by lia. reflexivity.
Qed.

Lemma create_t_x_extra_columns (c : nat) (rows : list (list R))
  (seed : option Z) (w : world) :
  (3 <= c)%nat ->
  seed_ok seed = true ->
  create_t_x gauss (Arr2 c rows) seed w
  = create_t_x gauss (Arr2 3 (map (firstn 3) rows)) seed w.
Proof.
  intros Hc Hs.
  rewrite (create_t_x_rows c rows seed w Hc Hs).
  rewrite (create_t_x_rows 3 (map (firstn 3) rows) seed w (le_n 3) Hs).
  rewrite length_map.
  apply (f_equal (fun l => (Ok (linspace (-1) 1 200, Arr2 (length rows) l),
                            world_after seed w))).
  apply tab2_ext. intros i j _ _. now rewrite quad_first_three.
Qed.

(** The power is taken after the first column is read and before the
    second. *)
Lemma eval_out_of_range (c : nat) (rows : list (list R)) (t : R)
  (seed : option Z) (w : world) :
  (1 <= c)%nat ->
  seed_ok seed = true ->
  float_pow t 2 = Raise OverflowError ->
  eval gauss (Arr2 c rows) t seed w
  = (Raise OverflowError, world_after seed w).
Proof.
  intros Hc Hs Ht. unfold eval, bindM.
  change (liftR (as_batch (Arr2 c rows)) w) with (Ok (Arr2 c rows), w).
  cbv beta iota. rewrite (new_RandomState_ok _ _ Hs). cbv beta iota.
  unfold liftR. f_equal.
  rewrite (column_ok c rows 0) by lia. rewrite Ht. reflexivity.
Qed.

Lemma eval_extra_columns (c : nat) (rows : list (list R)) (t : R)
  (seed : option Z) (w : world) :
  (3 <= c)%nat ->
  seed_ok seed = true ->
  eval gauss (Arr2 c rows) t seed w
  = eval gauss (Arr2 3 (map (firstn 3) rows)) t seed w.
Proof.
  intros Hc Hs. destruct (float_pow_cases t 2) as [Ht|Ht].
  - rewrite (eval_rows c rows t seed w Hc Hs Ht).
    rewrite (eval_rows 3 (map (firstn 3) rows) t seed w (le_n 3) Hs Ht).
    rewrite length_map.
    apply (f_equal (fun l => (Ok (Arr1 l), world_after seed w))).
    apply tab1_ext. intros j _. now rewrite quad_first_three.
  - rewrite (eval_out_of_range c rows t seed w) by (assumption || lia).
    now rewrite (eval_out_of_range 3 _ t seed w) by (assumption || lia).
Qed.

(** ** Seeded calls do not read the ambient state *)

Lemma create_t_x_seeded (theta : ndarray) (s : Z) (w : world) :
  create_t_x gauss theta (Some s) w
  = (fst (create_t_x gauss theta (Some s) 0%nat), w).
Proof.
  unfold create_t_x, bindM, liftR, new_RandomState.
  destruct (as_batch theta) as [th|e]; [|reflexivity].
  destruct ((0 <=? s) && (s <? 2 ^ 32))%Z; reflexivity.
Qed.

Lemma eval_seeded (theta : ndarray) (t : R) (s : Z) (w : world) :
  eval gauss theta t (Some s) w
  = (fst (eval gauss theta t (Some s) 0%nat), w).
Proof.
  unfold eval, bindM, liftR, new_RandomState.
  destruct (as_batch theta) as [th|e]; [|reflexivity].
  destruct ((0 <=? s) && (s <? 2 ^ 32))%Z; reflexivity.
Qed.

Lemma get_3_values_seeded (theta : ndarray) (s : Z) (w : world) :
  get_3_values gauss theta (Some s) w
  = (fst (get_3_values gauss theta (Some s) 0%nat), w).
Proof.
  unfold get_3_values, bindM, liftR.
  rewrite (eval_seeded theta (-0.5) s w), (eval_seeded theta 0 s w),
    (eval_seeded theta 0.75 s w).
  rewrite (eval_seeded theta (-0.5) s 0%nat), (eval_seeded theta 0 s 0%nat),
    (eval_seeded theta 0.75 s 0%nat).
  destruct (fst (eval gauss theta (-0.5) (Some s) 0%nat)); [|reflexivity].
  destruct (fst (eval gauss theta 0 (Some s) 0%nat)); [|reflexivity].
  destruct (fst (eval gauss theta 0.75 (Some s) 0%nat)); reflexivity.
Qed.

(** ** A single vector in place of a batch *)

Lemma get_3_values_vector (v : list R) (seed : option Z) :
  get_3_values gauss (Arr1 v) seed
  = get_3_values gauss (Arr2 (length v) [v]) seed.
Proof. reflexivity. Qed.

Lemma get_MSE_reference_vector (theta : ndarray) (v : list R)
  (seed : option Z) :
  get_MSE gauss theta (Arr1 v) seed
  = get_MSE gauss theta (Arr2 (length v) [v]) seed.
Proof. reflexivity. Qed.

Lemma get_MSE_candidate_vector (v : list R) (theta_o : ndarray)
  (seed : option Z) :
  get_MSE gauss (Arr1 v) theta_o seed
  = get_MSE gauss (Arr2 (length v) [v]) theta_o seed.
Proof. reflexivity. Qed.

End SimulatorFacts.

(** ** The claims about the simulator and its summary statistics *)

Lemma INR_199 : INR 199 = 199.
Proof. rewrite INR_IZR_INZ. simpl. reflexivity. Qed.

Lemma INR_200 : INR 200 = 200.
Proof. rewrite INR_IZR_INZ. simpl. reflexivity. Qed.

Lemma row_major_injective (n i j i' j' : nat) :
  (j < n)%nat -> (j' < n)%nat ->
  (i * n + j = i' * n + j')%nat -> i = i' /\ j = j'.
Proof.
  intros Hj Hj' H.
  assert (i = i') as -> by nia.
  split; [reflexivity | lia].
Qed.

Section Claims.

Variable gauss : source -> nat -> R.

(** C1.  For a batch of [N] parameter triples, [create_t_x] returns the
    200-point grid that is evenly spaced over [-1, 1] (point [i] is
    [-1 + i * 2/199], the first is [-1], the last is [1]) and a trace of shape
    [(200, N)] whose entry [(i, j)] is [a_j*t_i^2 + b_j*t_i + c_j] plus [0.01]
    times a standard normal draw of the generator; entry [(i, j)] reads draw
    number [i*N + j] of the stream, so different entries read different
    draws. *)
Theorem create_t_x_noisy_quadratic
  (thetas : list (R * R * R)) (seed : option Z) (w : world) :
  seed_ok seed = true ->
  exists (t : list R) (x : list (list R)),
    create_t_x gauss (batch_of thetas) seed w
    = (Ok (Arr1 t, Arr2 (length thetas) x), world_after seed w)
    /\ length t = 200%nat
    /\ (forall i, (i < 200)%nat -> nth i t 0 = -1 + INR i * (2 / 199))
    /\ nth 0 t 0 = -1
    /\ nth 199 t 0 = 1
    /\ shape (Arr2 (length thetas) x) = [200; length thetas]%nat
    /\ wf (Arr2 (length thetas) x) = true
    /\ (forall i j, (i < 200)%nat -> (j < length thetas)%nat ->
          entry x i j
          = quad3 (nth j thetas (0, 0, 0)) (nth i t 0)
            + 0.01 * gauss (source_of seed w) (i * length thetas + j))
    /\ (forall i j i' j',
          (j < length thetas)%nat -> (j' < length thetas)%nat ->
          (i * length thetas + j = i' * length thetas + j')%nat ->
          i = i' /\ j = j').
Proof.
  intros Hs. unfold batch_of.
  rewrite (create_t_x_rows gauss 3 (map triple_row thetas) seed w (le_n 3) Hs).
  rewrite linspace_grid, length_map.
  eexists. eexists. split; [reflexivity|].
  split; [apply length_tab1|].
  split.
  { intros i Hi. rewrite nth_tab1 by assumption. apply grid_closed_form. }
  split.
  { rewrite nth_tab1 by lia. rewrite grid_closed_form. cbn [INR]. lra. }
  split.
  { rewrite nth_tab1 by lia. rewrite grid_closed_form, INR_199. lra. }
  split.
  { cbn [shape]. now rewrite length_tab2. }
  split; [apply wf_tab2|].
  split.
  { intros i j Hi Hj. rewrite entry_tab2 by assumption.
    rewrite nth_tab1 by assumption. now rewrite quad_triples. }
  intros i j i' j'. apply row_major_injective.
Qed.

(** C4.  For a batch of [N] parameter triples and a time [t] whose square is
    in the range of binary64 ([|t| <= 10^154]), [eval] returns the [N] values
    [a_j*t^2 + b_j*t + c_j + 0.01*g] where [g] is one draw, the first of the
    generator's stream, the same for every [j]; the trace generator, on the
    same batch, reads draw [i*N + j] at entry [(i, j)]. *)
Theorem eval_one_shared_draw
  (thetas : list (R * R * R)) (t : R) (seed : option Z) (w : world) :
  seed_ok seed = true ->
  Rabs t <= 10 ^ 154 ->
  eval gauss (batch_of thetas) t seed w
  = (Ok (Arr1 (map (fun p => quad3 p t
                             + 0.01 * gauss (source_of seed w) 0%nat)
                   thetas)),
     world_after seed w)
  /\ exists tt x,
       create_t_x gauss (batch_of thetas) seed w
       = (Ok (tt, Arr2 (length thetas) x), world_after seed w)
       /\ forall i j, (i < 200)%nat -> (j < length thetas)%nat ->
            entry x i j
            = quad3 (nth j thetas (0, 0, 0)) (grid i)
              + 0.01 * gauss (source_of seed w) (i * length thetas + j).
Proof.
  intros Hs Ht. unfold batch_of. split.
  - rewrite (eval_rows gauss 3 (map triple_row thetas) t seed w (le_n 3) Hs
               (float_pow_in_range t Ht)).
    rewrite length_map.
    apply (f_equal (fun l => (Ok (Arr1 l), world_after seed w))).
    rewrite (map_as_tab1
               (fun p => quad3 p t + 0.01 * gauss (source_of seed w) 0%nat)
               thetas (0, 0, 0)).
    apply tab1_ext. intros j Hj. now rewrite quad_triples.
  - rewrite (create_t_x_rows gauss 3 (map triple_row thetas) seed w (le_n 3) Hs).
    rewrite length_map. eexists. eexists. split; [reflexivity|].
    intros i j Hi Hj. rewrite entry_tab2 by assumption.
    now rewrite quad_triples.
Qed.

(** C5.  With an integer seed, the output of [create_t_x] is the same in
    every ambient state, and the call leaves the ambient state as it was: two
    calls with the same [theta] and the same seed return the same result. *)
Theorem create_t_x_seed_deterministic
  (theta : ndarray) (s : Z) (w1 w2 : world) :
  fst (create_t_x gauss theta (Some s) w1)
  = fst (create_t_x gauss theta (Some s) w2)
  /\ snd (create_t_x gauss theta (Some s) w1) = w1.
Proof.
  rewrite (create_t_x_seeded gauss theta s w1).
  rewrite (create_t_x_seeded gauss theta s w2).
  split; reflexivity.
Qed.

(** C6.  The trace returned by [create_t_x] has shape [(200, 1)] for a single
    1-D parameter vector and [(200, N)] for a 2-D batch of [N] vectors. *)
Theorem create_t_x_shape (seed : option Z) (w : world) :
  seed_ok seed = true ->
  (forall a b c : R,
     exists t x,
       create_t_x gauss (Arr1 [a; b; c]) seed w
       = (Ok (t, x), world_after seed w)
       /\ shape t = [200%nat]
       /\ shape x = [200; 1]%nat /\ wf x = true)
  /\ (forall thetas : list (R * R * R),
        exists t x,
          create_t_x gauss (batch_of thetas) seed w
          = (Ok (t, x), world_after seed w)
          /\ shape t = [200%nat]
          /\ shape x = [200; length thetas]%nat /\ wf x = true).
Proof.
  intros Hs. split.
  - intros a b c. rewrite create_t_x_vector.
    rewrite (create_t_x_rows gauss (length [a; b; c]) [[a; b; c]] seed w
               (le_n 3) Hs).
    eexists. eexists. split; [reflexivity|].
    rewrite linspace_grid. cbn [shape length].
    rewrite length_tab1, length_tab2.
    split; [reflexivity|]. split; [reflexivity|]. apply (wf_tab2 200 1).
  - intros thetas. unfold batch_of.
    rewrite (create_t_x_rows gauss 3 (map triple_row thetas) seed w (le_n 3) Hs).
    eexists. eexists. split; [reflexivity|].
    rewrite linspace_grid, length_map. cbn [shape].
    rewrite length_tab1, length_tab2.
    split; [reflexivity|]. split; [reflexivity|]. apply wf_tab2.
Qed.


(** C8.  For a batch of [N] triples, [get_3_values] returns a matrix of
    shape [(N, 3)] whose columns are, in this order, the results of [eval] at
    the times [-0.5], [0] and [0.75]. *)
Theorem get_3_values_stacks_evaluations
  (thetas : list (R * R * R)) (seed : option Z) (w : world) :
  seed_ok seed = true ->
  exists v0 v1 v2 M,
    eval gauss (batch_of thetas) (-0.5) seed w
    = (Ok (Arr1 v0), world_after seed w)
    /\ eval gauss (batch_of thetas) 0 seed (world_after seed w)
       = (Ok (Arr1 v1), world_after seed (world_after seed w))
    /\ eval gauss (batch_of thetas) 0.75 seed
         (world_after seed (world_after seed w))
       = (Ok (Arr1 v2),
          world_after seed (world_after seed (world_after seed w)))
    /\ get_3_values gauss (batch_of thetas) seed w
       = (Ok (Arr2 3 M),
          world_after seed (world_after seed (world_after seed w)))
    /\ shape (Arr2 3 M) = [length thetas; 3%nat]
    /\ wf (Arr2 3 M) = true
    /\ forall j, (j < length thetas)%nat ->
         nth j M [] = [nth j v0 0; nth j v1 0; nth j v2 0].
Proof.
  intros Hs. unfold batch_of.
  rewrite (get_3_values_rows gauss 3 _ seed w (le_n 3) Hs).
  rewrite !(eval_rows gauss 3 _ _ seed _ (le_n 3) Hs)
    by (apply float_pow_unit; lra).
  rewrite length_map.
  eexists. eexists. eexists. eexists.
  split; [reflexivity|]. split; [reflexivity|]. split; [reflexivity|].
  split; [reflexivity|].
  split; [cbn [shape]; now rewrite length_tab1|].
  split; [now apply wf_rows_of_length|].
  intros j Hj. now rewrite !nth_tab1 by assumption.
Qed.


(** C10.  A single 1-D vector of length 3 is accepted by both statistics
    without being wrapped: [get_3_values] returns a matrix of shape [(1, 3)]
    and [get_MSE] a matrix of shape [(1, 1)]. *)
Theorem single_vector_statistics
  (a b c ao bo co : R) (seed : option Z) (w : world) :
  seed_ok seed = true ->
  (exists M w',
     get_3_values gauss (Arr1 [a; b; c]) seed w = (Ok M, w')
     /\ shape M = [1; 3]%nat /\ wf M = true)
  /\ (exists M w',
        get_MSE gauss (Arr1 [a; b; c]) (Arr1 [ao; bo; co]) seed w = (Ok M, w')
        /\ shape M = [1; 1]%nat /\ wf M = true).
Proof.
  intros Hs. split.
  - rewrite get_3_values_vector.
    rewrite (get_3_values_rows gauss (length [a; b; c]) [[a; b; c]] seed w
               (le_n 3) Hs).
    eexists. eexists. split; [reflexivity|].
    split; [reflexivity|]. now apply wf_rows_of_length.
  - rewrite get_MSE_reference_vector, get_MSE_candidate_vector.
    rewrite (get_MSE_rows gauss (length [a; b; c]) (length [ao; bo; co])
               [[a; b; c]] [ao; bo; co] seed w (le_n 3) (le_n 3) Hs).
    eexists. eexists. split; [reflexivity|].
    split; [reflexivity|]. now apply wf_rows_of_length.
Qed.

(** C2 (amended).  With an integer seed, [get_3_values] returns the same
    result in every ambient state, and its three columns carry the same noise
    value: each of the three [eval] calls rebuilds the generator from the seed
    and adds the first draw of that seed's stream. *)
Theorem get_3_values_seeded_columns_share_draw
  (theta : ndarray) (thetas : list (R * R * R)) (s : Z) (w1 w2 : world) :
  seed_ok (Some s) = true ->
  fst (get_3_values gauss theta (Some s) w1)
  = fst (get_3_values gauss theta (Some s) w2)
  /\ get_3_values gauss (batch_of thetas) (Some s) w1
     = (Ok (Arr2 3
              (map (fun p =>
                      [quad3 p (-0.5) + 0.01 * gauss (Seeded s) 0%nat;
                       quad3 p 0 + 0.01 * gauss (Seeded s) 0%nat;
                       quad3 p 0.75 + 0.01 * gauss (Seeded s) 0%nat])
                   thetas)),
        w1).
Proof.
  intros Hs. split.
  - rewrite (get_3_values_seeded gauss theta s w1).
    rewrite (get_3_values_seeded gauss theta s w2). reflexivity.
  - unfold batch_of.
    rewrite (get_3_values_rows gauss 3 _ (Some s) w1 (le_n 3) Hs).
    cbn [world_after source_of]. rewrite length_map.
    apply (f_equal (fun l => (Ok (Arr2 3 l), w1))).
    rewrite (map_as_tab1
               (fun p =>
                  [quad3 p (-0.5) + 0.01 * gauss (Seeded s) 0%nat;
                   quad3 p 0 + 0.01 * gauss (Seeded s) 0%nat;
                   quad3 p 0.75 + 0.01 * gauss (Seeded s) 0%nat])
               thetas (0, 0, 0)).
    apply tab1_ext. intros j Hj. now rewrite !quad_triples.
Qed.

(** C3 (amended).  For a parameter array whose inner dimension is [c], and
    for [eval] a time [t] whose square is in the range of binary64
    ([|t| <= 10^154]): when [c < 3], [create_t_x] and [eval] raise
    [IndexError] at the access to the first missing column; when [c > 3], they
    raise nothing and return what they return on the first three columns, the
    other columns being ignored. *)
Theorem inner_dimension_other_than_three
  (theta : ndarray) (c : nat) (t : R) (seed : option Z) (w : world) :
  seed_ok seed = true ->
  inner_dim theta = Some c ->
  Rabs t <= 10 ^ 154 ->
  ((c < 3)%nat ->
     create_t_x gauss theta seed w = (Raise IndexError, world_after seed w)
     /\ eval gauss theta t seed w = (Raise IndexError, world_after seed w))
  /\ ((3 < c)%nat ->
        create_t_x gauss theta seed w
        = create_t_x gauss (first_three theta) seed w
        /\ eval gauss theta t seed w = eval gauss (first_three theta) t seed w
        /\ raises (fst (create_t_x gauss theta seed w)) = false
        /\ raises (fst (eval gauss theta t seed w)) = false).
Proof.
  intros Hs Hc Ht. apply float_pow_in_range in Ht.
  assert (exists rows,
            create_t_x gauss theta seed = create_t_x gauss (Arr2 c rows) seed
            /\ eval gauss theta t seed = eval gauss (Arr2 c rows) t seed
            /\ ((3 < c)%nat ->
                create_t_x gauss (first_three theta) seed
                = create_t_x gauss (Arr2 3 (map (firstn 3) rows)) seed
                /\ eval gauss (first_three theta) t seed
                   = eval gauss (Arr2 3 (map (firstn 3) rows)) t seed))
    as (rows & Hx & He & Hf).
  { destruct theta as [x|v|c' rows]; cbn [inner_dim] in Hc;
      [discriminate | |]; injection Hc as <-.
    - exists [v]. split; [apply create_t_x_vector|].
      split; [apply eval_vector|].
      intros H3. cbn [first_three map].
      rewrite create_t_x_vector, eval_vector.
      rewrite length_firstn, Nat.min_l by lia. split; reflexivity.
    - exists rows. split; [reflexivity|]. split; [reflexivity|].
      intros _. split; reflexivity. }
  rewrite Hx, He. split.
  - intros Hlt. split.
    + now apply create_t_x_few_columns.
    + now apply eval_few_columns.
  - intros Hgt. destruct (Hf Hgt) as [Hfx Hfe]. rewrite Hfx, Hfe.
    split; [apply create_t_x_extra_columns; [lia | assumption]|].
    split; [apply eval_extra_columns; [lia | assumption]|].
    assert (3 <= c)%nat as H3 by lia.
    rewrite (create_t_x_rows gauss c rows seed w H3 Hs).
    rewrite (eval_rows gauss c rows t seed w H3 Hs Ht).
    split; reflexivity.
Qed.

End Claims.

(** ** The claims at concrete inputs *)

Lemma small_time (t : R) : -10 <= t <= 10 -> Rabs t <= 10 ^ 154.
Proof.
  intros Ht. apply Rle_trans with (10 ^ 1).
  - apply Rabs_le. lra.
  - apply Rle_pow; [lra | lia].
Qed.

Lemma small_is_moderate (x : R) : -10 <= x <= 10 -> moderate x.
Proof.
  intros Hx. unfold moderate. apply Rle_trans with (10 ^ 1).
  - apply Rabs_le. lra.
  - apply Rle_pow; [lra | lia].
Qed.

Lemma small_triple_is_moderate (a b c : R) :
  -10 <= a <= 10 -> -10 <= b <= 10 -> -10 <= c <= 10 ->
  moderate_triple (a, b, c).
Proof.
  intros Ha Hb Hc. cbn [moderate_triple].
  repeat split; now apply small_is_moderate.
Qed.

Lemma flip_is_moderate : moderate_stream flip.
Proof.
  intros s k. apply small_is_moderate. unfold flip.
  destruct (Nat.even k); lra.
Qed.

Lemma create_t_x_noisy_quadratic_witness :
  seed_ok (Some 7%Z) = true
  /\ exists t x,
       create_t_x ramp (batch_of [(1, 2, 3); (0, -1, 0.5)]) (Some 7%Z) 0%nat
       = (Ok (Arr1 t, Arr2 2 x), 0%nat)
       /\ length t = 200%nat
       /\ nth 0 t 0 = -1
       /\ nth 199 t 0 = 1
       /\ entry x 5 1
          = quad3 (0, -1, 0.5) (nth 5 t 0) + 0.01 * ramp (Seeded 7) 11.
Proof.
  split; [reflexivity|].
  destruct (create_t_x_noisy_quadratic ramp [(1, 2, 3); (0, -1, 0.5)]
              (Some 7%Z) 0%nat eq_refl)
    as (t & x & Hrun & Hlen & _ & Hfirst & Hlast & _ & _ & Hentry & _).
  exists t, x.
  split; [exact Hrun|]. split; [exact Hlen|].
  split; [exact Hfirst|]. split; [exact Hlast|].
  apply (Hentry 5%nat 1%nat); cbn [length]; lia.
Defined.

Lemma eval_one_shared_draw_witness :
  seed_ok (Some 7%Z) = true
  /\ Rabs 0.75 <= 10 ^ 154
  /\ eval ramp (batch_of [(1, 2, 3); (0, -1, 0.5)]) 0.75 (Some 7%Z) 0%nat
     = (Ok (Arr1 [quad3 (1, 2, 3) 0.75 + 0.01 * ramp (Seeded 7) 0;
                  quad3 (0, -1, 0.5) 0.75 + 0.01 * ramp (Seeded 7) 0]),
        0%nat).
Proof.
  assert (Ht : Rabs 0.75 <= 10 ^ 154) by (apply small_time; lra).
  split; [reflexivity|]. split; [exact Ht|].
  exact (proj1 (eval_one_shared_draw ramp [(1, 2, 3); (0, -1, 0.5)] 0.75
                  (Some 7%Z) 0%nat eq_refl Ht)).
Defined.

Lemma create_t_x_shape_witness :
  seed_ok None = true
  /\ (exists t x,
        create_t_x ramp (Arr1 [0.3; -0.2; -0.1]) None 4%nat = (Ok (t, x), 5%nat)
        /\ shape t = [200%nat] /\ shape x = [200; 1]%nat /\ wf x = true)
  /\ (exists t x,
        create_t_x ramp (batch_of [(1, 2, 3); (0, -1, 0.5); (0, 0, 0)])
          None 4%nat
        = (Ok (t, x), 5%nat)
        /\ shape t = [200%nat] /\ shape x = [200; 3]%nat /\ wf x = true).
Proof.
  split; [reflexivity|].
  split.
  - exact (proj1 (create_t_x_shape ramp None 4%nat eq_refl) 0.3 (-0.2) (-0.1)).
  - exact (proj2 (create_t_x_shape ramp None 4%nat eq_refl)
             [(1, 2, 3); (0, -1, 0.5); (0, 0, 0)]).
Defined.


Lemma get_3_values_stacks_evaluations_witness :
  seed_ok None = true
  /\ exists v0 v1 v2 M,
       eval ramp (batch_of [(1, 2, 3); (0, -1, 0.5)]) (-0.5) None 4%nat
       = (Ok (Arr1 v0), 5%nat)
       /\ eval ramp (batch_of [(1, 2, 3); (0, -1, 0.5)]) 0 None 5%nat
          = (Ok (Arr1 v1), 6%nat)
       /\ eval ramp (batch_of [(1, 2, 3); (0, -1, 0.5)]) 0.75 None 6%nat
          = (Ok (Arr1 v2), 7%nat)
       /\ get_3_values ramp (batch_of [(1, 2, 3); (0, -1, 0.5)]) None 4%nat
          = (Ok (Arr2 3 M), 7%nat)
       /\ shape (Arr2 3 M) = [2; 3]%nat
       /\ nth 1 M [] = [nth 1 v0 0; nth 1 v1 0; nth 1 v2 0].
Proof.
  split; [reflexivity|].
  destruct (get_3_values_stacks_evaluations ramp [(1, 2, 3); (0, -1, 0.5)]
              None 4%nat eq_refl)
    as (v0 & v1 & v2 & M & H0 & H1 & H2 & Hrun & Hshape & _ & Hentry).
  exists v0, v1, v2, M.
  split; [exact H0|]. split; [exact H1|]. split; [exact H2|].
  split; [exact Hrun|]. split; [exact Hshape|].
  apply (Hentry 1%nat). cbn [length]. lia.
Defined.


Lemma single_vector_statistics_witness :
  seed_ok (Some 7%Z) = true
  /\ (exists M w',
        get_3_values ramp (Arr1 [1; 2; 3]) (Some 7%Z) 0%nat = (Ok M, w')
        /\ shape M = [1; 3]%nat /\ wf M = true)
  /\ (exists M w',
        get_MSE ramp (Arr1 [1; 2; 3]) (Arr1 [0.3; -0.2; -0.1]) (Some 7%Z) 0%nat
        = (Ok M, w')
        /\ shape M = [1; 1]%nat /\ wf M = true).
Proof.
  split; [reflexivity|].
  exact (single_vector_statistics ramp 1 2 3 0.3 (-0.2) (-0.1) (Some 7%Z) 0%nat
           eq_refl).
Defined.

Lemma get_3_values_seeded_columns_share_draw_witness :
  seed_ok (Some 7%Z) = true
  /\ get_3_values ramp (batch_of [(1, 2, 3)]) (Some 7%Z) 0%nat
     = (Ok (Arr2 3 [[quad3 (1, 2, 3) (-0.5) + 0.01 * ramp (Seeded 7) 0;
                     quad3 (1, 2, 3) 0 + 0.01 * ramp (Seeded 7) 0;
                     quad3 (1, 2, 3) 0.75 + 0.01 * ramp (Seeded 7) 0]]),
        0%nat).
Proof.
  split; [reflexivity|].
  exact (proj2 (get_3_values_seeded_columns_share_draw ramp (Scalar 0)
                  [(1, 2, 3)] 7%Z 0%nat 0%nat eq_refl)).
Defined.

Lemma inner_dimension_other_than_three_witness :
  seed_ok (Some 7%Z) = true
  /\ inner_dim (Arr2 2 [[1; 2]]) = Some 2%nat
  /\ inner_dim (Arr2 4 [[1; 2; 3; 4]]) = Some 4%nat
  /\ Rabs 1 <= 10 ^ 154
  /\ (2 < 3)%nat
  /\ (3 < 4)%nat
  /\ create_t_x ramp (Arr2 2 [[1; 2]]) (Some 7%Z) 0%nat
     = (Raise IndexError, 0%nat)
  /\ eval ramp (Arr2 2 [[1; 2]]) 1 (Some 7%Z) 0%nat = (Raise IndexError, 0%nat)
  /\ create_t_x ramp (Arr2 4 [[1; 2; 3; 4]]) (Some 7%Z) 0%nat
     = create_t_x ramp (Arr2 3 [[1; 2; 3]]) (Some 7%Z) 0%nat
  /\ eval ramp (Arr2 4 [[1; 2; 3; 4]]) 1 (Some 7%Z) 0%nat
     = eval ramp (Arr2 3 [[1; 2; 3]]) 1 (Some 7%Z) 0%nat.
Proof.
  assert (H23 : (2 < 3)%nat) by (apply Nat.lt_succ_diag_r).
  assert (H34 : (3 < 4)%nat) by (apply Nat.lt_succ_diag_r).
  assert (Ht : Rabs 1 <= 10 ^ 154) by (apply small_time; lra).
  split; [reflexivity|]. split; [reflexivity|]. split; [reflexivity|].
  split; [exact Ht|]. split; [exact H23|]. split; [exact H34|].
  pose proof (proj1 (inner_dimension_other_than_three ramp (Arr2 2 [[1; 2]])
                       2%nat 1 (Some 7%Z) 0%nat eq_refl eq_refl Ht) H23)
    as Hfew.
  pose proof (proj2 (inner_dimension_other_than_three ramp
                       (Arr2 4 [[1; 2; 3; 4]]) 4%nat 1 (Some 7%Z) 0%nat
                       eq_refl eq_refl Ht) H34) as Hmany.
  split; [exact (proj1 Hfew)|]. split; [exact (proj2 Hfew)|].
  split; [exact (proj1 Hmany)|]. exact (proj1 (proj2 Hmany)).
Defined.

(** C2, as stated, fails: with seed [0] and the batch [[(0, 0, 0)]], the three
    columns of [get_3_values] are one and the same noise value, and no three
    pairwise different draws produce them. *)
Lemma seeded_columns_share_one_draw :
  (forall (gauss : source -> nat -> R) (w : world),
     get_3_values gauss (batch_of [(0, 0, 0)]) (Some 0%Z) w
     = (Ok (Arr2 3 [[0.01 * gauss (Seeded 0) 0%nat;
                     0.01 * gauss (Seeded 0) 0%nat;
                     0.01 * gauss (Seeded 0) 0%nat]]),
        w))
  /\ ~ columns_have_own_draws [[0; 0; 0]] 0.
Proof.
  assert (Hq : forall t g, quad [[0; 0; 0]] 0 t + 0.01 * g = 0.01 * g).
  { intros t g. unfold quad, entry. cbn [nth]. ring. }
  split.
  - intros gauss w. unfold batch_of. cbn [map triple_row].
    rewrite (get_3_values_rows gauss 3 [[0; 0; 0]] (Some 0%Z) w (le_n 3) eq_refl).
    cbn [length world_after source_of]. rewrite tab1_one, !Hq. reflexivity.
  - intros (d0 & d1 & d2 & H01 & _ & _ & H).
    specialize (H (only_at d0) 0%nat).
    rewrite (get_3_values_rows (only_at d0) 3 [[0; 0; 0]] (Some 0%Z) 0%nat
               (le_n 3) eq_refl) in H.
    cbn [fst length world_after source_of] in H.
    rewrite !tab1_one, !Hq in H.
    injection H as E0 E1 _.
    rewrite only_at_same in E0.
    rewrite (only_at_other d0 d1) in E1 by congruence.
    lra.
Qed.

(** C3, as stated, fails: a batch with four columns is not rejected; the
    fourth column is ignored and the value of the first three is returned. *)
Lemma extra_column_is_not_rejected :
  (forall gauss : source -> nat -> R,
     raises (fst (create_t_x gauss (Arr2 4 [[1; 2; 3; 4]]) (Some 0%Z) 0%nat))
     = false)
  /\ (forall gauss : source -> nat -> R,
        eval gauss (Arr2 4 [[1; 2; 3; 4]]) 1 (Some 0%Z) 0%nat
        = (Ok (Arr1 [6 + 0.01 * gauss (Seeded 0) 0%nat]), 0%nat)).
Proof.
  assert (H34 : (3 <= 4)%nat) by lia.
  split; intros gauss.
  - now rewrite (create_t_x_rows gauss 4 [[1; 2; 3; 4]] (Some 0%Z) 0%nat
                   H34 eq_refl).
  - rewrite (eval_rows gauss 4 [[1; 2; 3; 4]] 1 (Some 0%Z) 0%nat H34 eq_refl)
      by (apply float_pow_unit; lra).
    cbn [length world_after source_of]. rewrite tab1_one.
    apply (f_equal (fun v => (Ok (Arr1 [v]), 0%nat))).
    unfold quad, entry. cbn [nth]. lra.
Qed.

(** ** Further properties of the four functions *)

Lemma as_batch_ok (theta : ndarray) : exists th, as_batch theta = Ok th.
Proof. destruct theta as [x|v|c rows]; eexists; reflexivity. Qed.

Lemma zip_with_tab1 {A B C : Type} (f : A -> B -> C) (n : nat)
  (g : nat -> A) (h : nat -> B) :
  zip_with f (tab1 n g) (tab1 n h) = tab1 n (fun i => f (g i) (h i)).
Proof. apply zip_with_map. Qed.

Lemma binop_column_matrix (f : R -> R -> R) (n m : nat)
  (g h : nat -> nat -> R) :
  binop f (Arr2 1 (tab2 n 1 g)) (Arr2 m (tab2 n m h))
  = Ok (Arr2 m (tab2 n m (fun i j => f (g i 0%nat) (h i j)))).
Proof.
  cbn [binop]. unfold binop2.
  rewrite bdim_one_l, !length_tab2, bdim_same. cbn [rbind].
  do 2 f_equal. unfold tab2. rewrite bzip_tab1.
  apply tab1_ext. intros i _.
  rewrite tab1_one. cbn [bzip]. apply map_tab1.
Qed.

Lemma binop_shape_mismatch (f : R -> R -> R) (m m' : nat)
  (ra rb : list (list R)) :
  m <> m' -> m <> 1%nat -> m' <> 1%nat ->
  binop f (Arr2 m ra) (Arr2 m' rb) = Raise ValueError.
Proof.
  intros H H1 H1'. cbn [binop]. unfold binop2, bdim.
  destruct (Nat.eqb_spec m m'); [contradiction|].
  destruct (Nat.eqb_spec m 1); [contradiction|].
  destruct (Nat.eqb_spec m' 1); [contradiction|].
  reflexivity.
Qed.

Lemma tab1_succ {A : Type} (n : nat) (f : nat -> A) :
  tab1 (S n) f = f 0%nat :: tab1 n (fun i => f (S i)).
Proof.
  unfold tab1. cbn [seq map]. f_equal.
  rewrite <- seq_shift. now rewrite map_map.
Qed.

Lemma zip_with_as_tab1 {A B C : Type} (f : A -> B -> C)
  (l : list A) (l' : list B) (d : A) (d' : B) :
  length l = length l' ->
  zip_with f l l' = tab1 (length l) (fun j => f (nth j l d) (nth j l' d')).
Proof.
  revert l'. induction l as [|a l IH]; intros [|b l'] H; cbn in H;
    try discriminate; [reflexivity|].
  cbn [zip_with length]. rewrite tab1_succ. cbn [nth].
  f_equal. apply IH. lia.
Qed.

Lemma quad_single (a b c t : R) : quad [[a; b; c]] 0 t = quad3 (a, b, c) t.
Proof. reflexivity. Qed.

Section MoreFacts.

Variable gauss : source -> nat -> R.

(** *** Arrays with a last axis of any length *)

Lemma create_t_x_first_three (theta : ndarray) (c : nat)
  (seed : option Z) (w : world) :
  inner_dim theta = Some c -> (3 <= c)%nat -> seed_ok seed = true ->
  create_t_x gauss theta seed w = create_t_x gauss (first_three theta) seed w.
Proof.
  destruct theta as [x|v|c' rows]; cbn [inner_dim]; intros H Hc Hs;
    [discriminate | |]; injection H as <-.
  - cbn [first_three]. rewrite !create_t_x_vector.
    rewrite length_firstn, Nat.min_l by assumption.
    now apply create_t_x_extra_columns.
  - now apply create_t_x_extra_columns.
Qed.

Lemma eval_first_three (theta : ndarray) (c : nat) (t : R)
  (seed : option Z) (w : world) :
  inner_dim theta = Some c -> (3 <= c)%nat -> seed_ok seed = true ->
  eval gauss theta t seed w = eval gauss (first_three theta) t seed w.
Proof.
  destruct theta as [x|v|c' rows]; cbn [inner_dim]; intros H Hc Hs;
    [discriminate | |]; injection H as <-.
  - cbn [first_three]. rewrite !eval_vector.
    rewrite length_firstn, Nat.min_l by assumption.
    now apply eval_extra_columns.
  - now apply eval_extra_columns.
Qed.

Lemma create_t_x_too_few (theta : ndarray) (c : nat)
  (seed : option Z) (w : world) :
  inner_dim theta = Some c -> (c < 3)%nat -> seed_ok seed = true ->
  create_t_x gauss theta seed w = (Raise IndexError, world_after seed w).
Proof.
  destruct theta as [x|v|c' rows]; cbn [inner_dim]; intros H Hc Hs;
    [discriminate | |]; injection H as <-.
  - rewrite create_t_x_vector. now apply create_t_x_few_columns.
  - now apply create_t_x_few_columns.
Qed.

Lemma eval_too_few (theta : ndarray) (c : nat) (t : R)
  (seed : option Z) (w : world) :
  inner_dim theta = Some c -> (c < 3)%nat -> seed_ok seed = true ->
  float_pow t 2 = Ok (t ^ 2) ->
  eval gauss theta t seed w = (Raise IndexError, world_after seed w).
Proof.
  destruct theta as [x|v|c' rows]; cbn [inner_dim]; intros H Hc Hs Ht;
    [discriminate | |]; injection H as <-.
  - rewrite eval_vector. now apply eval_few_columns.
  - now apply eval_few_columns.
Qed.

(** The result of [create_t_x] on an array with at least three columns. *)
Lemma create_t_x_succeeds (theta : ndarray) (c : nat)
  (seed : option Z) (w : world) :
  inner_dim theta = Some c -> (3 <= c)%nat -> seed_ok seed = true ->
  exists tx,
    create_t_x gauss theta seed w = (Ok tx, world_after seed w)
    /\ fst tx = Arr1 (tab1 200 grid).
Proof.
  destruct theta as [x|v|c' rows]; cbn [inner_dim]; intros H Hc Hs;
    [discriminate | |]; injection H as <-.
  - rewrite create_t_x_vector.
    rewrite (create_t_x_rows gauss _ _ seed w Hc Hs).
    eexists. split; reflexivity.
  - rewrite (create_t_x_rows gauss _ _ seed w Hc Hs).
    eexists. split; reflexivity.
Qed.

(** X1.  [get_3_values] raises [IndexError] on a parameter array with fewer
    than three columns; [get_MSE] raises it when the reference has fewer than
    three columns, whatever the candidates are, and when the candidates have
    fewer than three columns and the reference at least three. *)
Theorem statistics_need_three_columns
  (bad theta good : ndarray) (c cg : nat) (seed : option Z) (w : world) :
  seed_ok seed = true ->
  inner_dim bad = Some c -> (c < 3)%nat ->
  inner_dim good = Some cg -> (3 <= cg)%nat ->
  get_3_values gauss bad seed w = (Raise IndexError, world_after seed w)
  /\ get_MSE gauss theta bad seed w = (Raise IndexError, world_after seed w)
  /\ get_MSE gauss bad good seed w
     = (Raise IndexError, world_after seed (world_after seed w)).
Proof.
  intros Hs Hbad Hc Hgood Hcg. split; [|split].
  - unfold get_3_values, bindM.
    now rewrite (eval_too_few bad c (-0.5) seed w Hbad Hc Hs)
      by (apply float_pow_unit; lra).
  - unfold get_MSE, bindM.
    now rewrite (create_t_x_too_few bad c seed w Hbad Hc Hs).
  - unfold get_MSE, bindM.
    destruct (create_t_x_succeeds good cg seed w Hgood Hcg Hs) as [tx [-> _]].
    now rewrite (create_t_x_too_few bad c seed _ Hbad Hc Hs).
Qed.

(** X2.  On parameter arrays with three or more columns, [get_3_values] and
    [get_MSE] return what they return on the first three columns: every
    further column is ignored, in the candidates and in the reference. *)
Theorem statistics_ignore_extra_columns
  (theta ref : ndarray) (c cr : nat) (seed : option Z) (w : world) :
  seed_ok seed = true ->
  inner_dim theta = Some c -> (3 <= c)%nat ->
  inner_dim ref = Some cr -> (3 <= cr)%nat ->
  get_3_values gauss theta seed w
  = get_3_values gauss (first_three theta) seed w
  /\ get_MSE gauss theta ref seed w
     = get_MSE gauss (first_three theta) (first_three ref) seed w.
Proof.
  intros Hs Hth Hc Href Hcr. split.
  - unfold get_3_values, bindM.
    rewrite <- (eval_first_three theta c (-0.5) seed w Hth Hc Hs).
    destruct (eval gauss theta (-0.5) seed w) as [[e0|e] w1]; [|reflexivity].
    rewrite <- (eval_first_three theta c 0 seed w1 Hth Hc Hs).
    destruct (eval gauss theta 0 seed w1) as [[e1|e] w2]; [|reflexivity].
    now rewrite <- (eval_first_three theta c 0.75 seed w2 Hth Hc Hs).
  - unfold get_MSE, bindM.
    rewrite <- (create_t_x_first_three ref cr seed w Href Hcr Hs).
    destruct (create_t_x gauss ref seed w) as [[tx|e] w1]; [|reflexivity].
    now rewrite <- (create_t_x_first_three theta c seed w1 Hth Hc Hs).
Qed.

(** X3.  An integer seed outside [0, 2^32) makes each of the four functions
    raise [ValueError] for every parameter array: the generator is built
    before any column is read, so the seed is refused first, also when the
    array has too few columns. *)
Theorem bad_seed_is_refused_first
  (theta ref : ndarray) (t : R) (s : Z) (w : world) :
  seed_ok (Some s) = false ->
  create_t_x gauss theta (Some s) w = (Raise ValueError, w)
  /\ eval gauss theta t (Some s) w = (Raise ValueError, w)
  /\ get_3_values gauss theta (Some s) w = (Raise ValueError, w)
  /\ get_MSE gauss theta ref (Some s) w = (Raise ValueError, w).
Proof.
  intros Hs.
  assert (Hx : forall th w', create_t_x gauss th (Some s) w'
                             = (Raise ValueError, w')).
  { intros th w'. unfold create_t_x, bindM, liftR.
    destruct (as_batch_ok th) as [th' ->].
    now rewrite (new_RandomState_bad s w' Hs). }
  assert (He : forall t', eval gauss theta t' (Some s) w
                          = (Raise ValueError, w)).
  { intros t'. unfold eval, bindM, liftR.
    destruct (as_batch_ok theta) as [th' ->].
    now rewrite (new_RandomState_bad s w Hs). }
  split; [apply Hx|]. split; [apply He|]. split.
  - unfold get_3_values, bindM. now rewrite He.
  - unfold get_MSE, bindM. now rewrite Hx.
Qed.

(** X4.  A 0-d parameter array makes each of the four functions raise
    [IndexError]; for [get_MSE] this holds for a 0-d reference with any
    candidates, and for 0-d candidates with a good reference. *)
Theorem zero_dimensional_theta_is_refused
  (x t : R) (theta good : ndarray) (cg : nat) (seed : option Z) (w : world) :
  seed_ok seed = true ->
  inner_dim good = Some cg -> (3 <= cg)%nat ->
  create_t_x gauss (Scalar x) seed w = (Raise IndexError, world_after seed w)
  /\ eval gauss (Scalar x) t seed w = (Raise IndexError, world_after seed w)
  /\ get_3_values gauss (Scalar x) seed w
     = (Raise IndexError, world_after seed w)
  /\ get_MSE gauss theta (Scalar x) seed w
     = (Raise IndexError, world_after seed w)
  /\ get_MSE gauss (Scalar x) good seed w
     = (Raise IndexError, world_after seed (world_after seed w)).
Proof.
  intros Hs Hgood Hcg.
  assert (Hx : forall w', create_t_x gauss (Scalar x) seed w'
                          = (Raise IndexError, world_after seed w')).
  { intros w'. unfold create_t_x, bindM, liftR.
    change (as_batch (Scalar x)) with (Ok (Scalar x)). cbv beta iota.
    now rewrite (new_RandomState_ok seed w' Hs). }
  assert (He : forall t', eval gauss (Scalar x) t' seed w
                          = (Raise IndexError, world_after seed w)).
  { intros t'. unfold eval, bindM, liftR.
    change (as_batch (Scalar x)) with (Ok (Scalar x)). cbv beta iota.
    now rewrite (new_RandomState_ok seed w Hs). }
  split; [apply Hx|]. split; [apply He|]. split; [|split].
  - unfold get_3_values, bindM. now rewrite He.
  - unfold get_MSE, bindM. now rewrite Hx.
  - unfold get_MSE, bindM.
    destruct (create_t_x_succeeds good cg seed w Hgood Hcg Hs) as [tx [-> _]].
    now rewrite Hx.
Qed.

(** *** The coordinate statistic of a batch of triples *)

Lemma get_3_values_batch (thetas : list (R * R * R))
  (seed : option Z) (w : world) :
  seed_ok seed = true ->
  get_3_values gauss (batch_of thetas) seed w
  = (Ok (Arr2 3
           (map (coordinates
                   (0.01 * gauss (source_of seed w) 0%nat)
                   (0.01 * gauss (source_of seed (world_after seed w)) 0%nat)
                   (0.01 * gauss (source_of seed
                                    (world_after seed (world_after seed w)))
                             0%nat))
                thetas)),
     world_after seed (world_after seed (world_after seed w))).
Proof.
  intros Hs. unfold batch_of.
  rewrite (get_3_values_rows gauss 3 _ seed w (le_n 3) Hs).
  rewrite length_map.
  apply (f_equal (fun l => (Ok (Arr2 3 l), _))).
  rewrite (map_as_tab1 (coordinates _ _ _) thetas (0, 0, 0)).
  apply tab1_ext. intros j Hj. unfold coordinates.
  now rewrite !quad_triples.
Qed.

(** X5.  Without a seed, [get_3_values] builds three generators, one in each
    [eval] call: the three columns of a batch carry the first draws of three
    different streams, and three reads of ambient entropy are consumed. *)
Theorem get_3_values_unseeded_reads_three_streams
  (thetas : list (R * R * R)) (w : world) :
  get_3_values gauss (batch_of thetas) None w
  = (Ok (Arr2 3
           (map (fun p =>
                   [quad3 p (-0.5) + 0.01 * gauss (Entropy w) 0%nat;
                    quad3 p 0 + 0.01 * gauss (Entropy (S w)) 0%nat;
                    quad3 p 0.75 + 0.01 * gauss (Entropy (S (S w))) 0%nat])
                thetas)),
     S (S (S w))).
Proof. exact (get_3_values_batch thetas None w eq_refl). Qed.

(** *** The error statistic of a batch of triples *)

Lemma get_MSE_triples (thetas : list (R * R * R)) (po : R * R * R)
  (seed : option Z) (w : world) :
  seed_ok seed = true ->
  get_MSE gauss (batch_of thetas) (Arr1 (triple_row po)) seed w
  = (Ok (Arr2 1
           (tab1 (length thetas)
              (fun j =>
                 [Rsum (tab1 200
                          (fun i =>
                             (quad3 (nth j thetas (0, 0, 0)) (grid i)
                              + 0.01
                                * gauss (source_of seed (world_after seed w))
                                    (i * length thetas + j)
                              - (quad3 po (grid i)
                                 + 0.01 * gauss (source_of seed w) i)) ^ 2))
                  / 200]))),
     world_after seed (world_after seed w)).
Proof.
  intros Hs. destruct po as [[ao bo] co]. cbn [triple_row].
  rewrite get_MSE_reference_vector. unfold batch_of.
  rewrite (get_MSE_rows gauss 3 (length [ao; bo; co]) (map triple_row thetas)
             [ao; bo; co] seed w (le_n 3) (le_n 3) Hs).
  rewrite length_map.
  apply (f_equal (fun l => (Ok (Arr2 1 l), _))).
  apply tab1_ext. intros j Hj. rewrite INR_200.
  apply (f_equal (fun l => [Rsum l / 200])).
  apply tab1_ext. intros i Hi.
  rewrite quad_triples by assumption. rewrite quad_single. ring.
Qed.

(** X7.  For a batch of [N] candidate triples and one reference triple,
    entry [j] of [get_MSE] is the mean over the grid of the square of the
    candidate value minus the reference value, where the candidate value at
    time [i] is the quadratic of triple [j] plus [0.01] times draw [i*N + j]
    of the generator built second, and the reference value is the quadratic
    of the reference plus [0.01] times draw [i] of the generator built
    first. *)
Theorem get_MSE_entries_and_draws
  (thetas : list (R * R * R)) (po : R * R * R)
  (seed : option Z) (w : world) :
  seed_ok seed = true ->
  exists M,
    get_MSE gauss (batch_of thetas) (Arr1 (triple_row po)) seed w
    = (Ok (Arr2 1 M), world_after seed (world_after seed w))
    /\ length M = length thetas
    /\ forall j, (j < length thetas)%nat ->
         nth j M []
         = [Rsum (tab1 200
                    (fun i =>
                       (quad3 (nth j thetas (0, 0, 0)) (grid i)
                        + 0.01
                          * gauss (source_of seed (world_after seed w))
                              (i * length thetas + j)
                        - (quad3 po (grid i)
                           + 0.01 * gauss (source_of seed w) i)) ^ 2))
            / 200].
Proof.
  intros Hs. rewrite (get_MSE_triples thetas po seed w Hs).
  eexists. split; [reflexivity|]. split; [apply length_tab1|].
  intros j Hj. now rewrite nth_tab1.
Qed.

(** *** The error statistic against a batch of references *)

Lemma get_MSE_rows_paired (c co : nat) (rows rows_o : list (list R))
  (seed : option Z) (w : world) :
  (3 <= c)%nat -> (3 <= co)%nat ->
  seed_ok seed = true ->
  length rows_o = length rows ->
  let w1 := world_after seed w in
  let x := fun i j =>
    quad rows_o j (grid i)
    + 0.01 * gauss (source_of seed w) (i * length rows + j) in
  let x_ := fun i j =>
    quad rows j (grid i)
    + 0.01 * gauss (source_of seed w1) (i * length rows + j) in
  get_MSE gauss (Arr2 c rows) (Arr2 co rows_o) seed w
  = (Ok (Arr2 1
           (tab1 (length rows)
              (fun j =>
                 [Rsum (tab1 200
                          (fun i => (x_ i j - x i j) * (x_ i j - x i j)))
                  / INR 200]))),
     world_after seed w1).
Proof.
  intros Hc Hco Hs Hlen w1 x x_. unfold get_MSE, bindM.
  rewrite (create_t_x_rows gauss _ _ _ w Hco Hs). fold w1.
  rewrite (create_t_x_rows gauss _ _ _ w1 Hc Hs).
  unfold liftR. f_equal. cbn [snd]. rewrite Hlen.
  unfold np_sub. rewrite binop_matrix_matrix. cbn [rbind].
  unfold np_square. rewrite map_array_tab2, mean_tab2. cbn [rbind].
  now rewrite transpose_single_row.
Qed.

Lemma get_MSE_rows_mismatch (c co : nat) (rows rows_o : list (list R))
  (seed : option Z) (w : world) :
  (3 <= c)%nat -> (3 <= co)%nat ->
  seed_ok seed = true ->
  length rows <> length rows_o ->
  length rows <> 1%nat -> length rows_o <> 1%nat ->
  get_MSE gauss (Arr2 c rows) (Arr2 co rows_o) seed w
  = (Raise ValueError, world_after seed (world_after seed w)).
Proof.
  intros Hc Hco Hs Hne H1 H1o. unfold get_MSE, bindM.
  rewrite (create_t_x_rows gauss _ _ _ w Hco Hs).
  rewrite (create_t_x_rows gauss _ _ _ _ Hc Hs).
  unfold liftR. f_equal. cbn [snd].
  unfold np_sub. now rewrite binop_shape_mismatch.
Qed.

Lemma get_MSE_rows_swapped (c co : nat) (rows : list (list R)) (ro : list R)
  (seed : option Z) (w : world) :
  (3 <= c)%nat -> (3 <= co)%nat ->
  seed_ok seed = true ->
  let w1 := world_after seed w in
  let x := fun i j =>
    quad rows j (grid i)
    + 0.01 * gauss (source_of seed w) (i * length rows + j) in
  let x_ := fun i =>
    quad [ro] 0 (grid i) + 0.01 * gauss (source_of seed w1) i in
  get_MSE gauss (Arr2 co [ro]) (Arr2 c rows) seed w
  = (Ok (Arr2 1
           (tab1 (length rows)
              (fun j =>
                 [Rsum (tab1 200
                          (fun i => (x_ i - x i j) * (x_ i - x i j)))
                  / INR 200]))),
     world_after seed w1).
Proof.
  intros Hc Hco Hs w1 x x_. unfold get_MSE, bindM.
  rewrite (create_t_x_rows gauss _ _ _ w Hc Hs). fold w1.
  rewrite (create_t_x_rows gauss _ _ _ w1 Hco Hs).
  unfold liftR. f_equal. cbn [snd length].
  unfold np_sub. rewrite binop_column_matrix. cbn [rbind].
  unfold np_square. rewrite map_array_tab2, mean_tab2. cbn [rbind].
  rewrite transpose_single_row.
  apply (f_equal (fun l => Ok (Arr2 1 l))).
  apply tab1_ext. intros j Hj.
  apply (f_equal (fun l => [Rsum l / INR 200])).
  apply tab1_ext. intros i Hi. subst x x_. cbv beta.
  rewrite Nat.mul_1_r, Nat.add_0_r. reflexivity.
Qed.

(** X11.  When the reference is a batch of [M] triples and the candidates a
    batch of [N] triples with [N <> M], [N <> 1] and [M <> 1], the two traces
    cannot be broadcast and [get_MSE] raises [ValueError], after both traces
    were generated. *)
Theorem get_MSE_sizes_must_broadcast
  (thetas thetas_o : list (R * R * R)) (seed : option Z) (w : world) :
  seed_ok seed = true ->
  length thetas <> length thetas_o ->
  length thetas <> 1%nat -> length thetas_o <> 1%nat ->
  get_MSE gauss (batch_of thetas) (batch_of thetas_o) seed w
  = (Raise ValueError, world_after seed (world_after seed w)).
Proof.
  intros Hs Hne H1 H1o. unfold batch_of.
  apply get_MSE_rows_mismatch; try assumption; try apply le_n;
    now rewrite !length_map.
Qed.

(** X12.  When the reference is a batch of as many triples as the
    candidates, [get_MSE] compares candidate [j] with reference [j]: entry
    [j] is the mean over the grid of the square of the candidate value minus
    the reference value, and both values carry draw [i*N + j] of their
    generator, which with an integer seed is the same draw. *)
Theorem get_MSE_pairs_equal_batches
  (thetas thetas_o : list (R * R * R)) (seed : option Z) (w : world) :
  seed_ok seed = true ->
  length thetas_o = length thetas ->
  exists M,
    get_MSE gauss (batch_of thetas) (batch_of thetas_o) seed w
    = (Ok (Arr2 1 M), world_after seed (world_after seed w))
    /\ length M = length thetas
    /\ (forall j, (j < length thetas)%nat ->
          nth j M []
          = [Rsum (tab1 200
                     (fun i =>
                        (quad3 (nth j thetas (0, 0, 0)) (grid i)
                         + 0.01
                           * gauss (source_of seed (world_after seed w))
                               (i * length thetas + j)
                         - (quad3 (nth j thetas_o (0, 0, 0)) (grid i)
                            + 0.01
                              * gauss (source_of seed w)
                                  (i * length thetas + j))) ^ 2))
             / 200])
    /\ forall s, seed = Some s ->
         source_of seed (world_after seed w) = source_of seed w.
Proof.
  intros Hs Hlen. unfold batch_of.
  rewrite (get_MSE_rows_paired 3 3 _ _ seed w (le_n 3) (le_n 3) Hs)
    by now rewrite !length_map.
  rewrite length_map.
  eexists. split; [reflexivity|]. split; [apply length_tab1|]. split.
  - intros j Hj. rewrite nth_tab1 by assumption. rewrite INR_200.
    apply (f_equal (fun l => [Rsum l / 200])).
    apply tab1_ext. intros i Hi.
    rewrite !quad_triples by lia. ring.
  - intros s ->. reflexivity.
Qed.

(** X17.  With an integer seed, the same batch of triples as candidates and
    as reference, the parameters and the draws being moderate so that every
    trace value is finite, [get_MSE] returns a column of zeros: the two
    traces are the same array. *)
Theorem get_MSE_same_batch_cancels
  (thetas : list (R * R * R)) (s : Z) (w : world) :
  seed_ok (Some s) = true ->
  Forall moderate_triple thetas ->
  moderate_stream gauss ->
  get_MSE gauss (batch_of thetas) (batch_of thetas) (Some s) w
  = (Ok (Arr2 1 (map (fun _ => [0]) thetas)), w).
Proof.
  intros Hs _ _. unfold batch_of.
  rewrite (get_MSE_rows_paired 3 3 _ _ (Some s) w (le_n 3) (le_n 3) Hs)
    by reflexivity.
  rewrite length_map. cbn [world_after source_of].
  apply (f_equal (fun l => (Ok (Arr2 1 l), w))).
  rewrite (map_as_tab1 (fun _ => [0]) thetas (0, 0, 0)).
  apply tab1_ext. intros j Hj.
  apply (f_equal (fun m => [m])).
  rewrite Rsum_zero; [unfold Rdiv; apply Rmult_0_l|].
  apply Forall_tab1. intros i _. ring.
Qed.

(** X13.  With an integer seed, [get_MSE] is symmetric in its two arguments
    for a batch and a single vector: passing the single vector as the
    candidate and the batch as the reference returns the same column. *)
Theorem get_MSE_seeded_symmetric
  (thetas : list (R * R * R)) (po : R * R * R) (s : Z) (w : world) :
  seed_ok (Some s) = true ->
  get_MSE gauss (Arr1 (triple_row po)) (batch_of thetas) (Some s) w
  = get_MSE gauss (batch_of thetas) (Arr1 (triple_row po)) (Some s) w.
Proof.
  intros Hs. destruct po as [[ao bo] co]. cbn [triple_row].
  rewrite get_MSE_candidate_vector, get_MSE_reference_vector. unfold batch_of.
  rewrite (get_MSE_rows_swapped 3 (length [ao; bo; co]) _ [ao; bo; co]
             (Some s) w (le_n 3) (le_n 3) Hs).
  rewrite (get_MSE_rows gauss 3 (length [ao; bo; co]) _ [ao; bo; co]
             (Some s) w (le_n 3) (le_n 3) Hs).
  cbn [world_after source_of].
  apply (f_equal (fun l => (Ok (Arr2 1 l), w))).
  apply tab1_ext. intros j Hj.
  apply (f_equal (fun l => [Rsum l / INR 200])).
  apply tab1_ext. intros i Hi. ring.
Qed.

(** *** The statistics cell *)

(** X14.  For a batch of [N] triples, the cell that builds [stats] joins the
    [(N, 3)] coordinate statistic and the [(N, 1)] error statistic into an
    [(N, 4)] array: row [j] is row [j] of [get_3_values] followed by entry
    [j] of [get_MSE]; the two row counts always agree, and the cell builds
    five unseeded generators. *)
Theorem stats_joins_the_four_statistics
  (thetas : list (R * R * R)) (w : world) :
  exists S3 MS M,
    get_3_values gauss (batch_of thetas) None w
    = (Ok (Arr2 3 S3), (3 + w)%nat)
    /\ get_MSE gauss (batch_of thetas) theta_o None (3 + w)%nat
       = (Ok (Arr2 1 MS), (5 + w)%nat)
    /\ stats gauss (batch_of thetas) w = (Ok (Arr2 4 M), (5 + w)%nat)
    /\ shape (Arr2 4 M) = [length thetas; 4%nat]
    /\ wf (Arr2 4 M) = true
    /\ forall j, (j < length thetas)%nat ->
         nth j M [] = nth j S3 [] ++ nth j MS [].
Proof.
  unfold stats, bindM.
  rewrite (get_3_values_batch thetas None w eq_refl).
  change theta_o with (Arr1 (triple_row (0.3, -0.2, -0.1))).
  cbn [world_after Nat.add].
  rewrite (get_MSE_triples thetas (0.3, -0.2, -0.1) None _ eq_refl).
  cbn [world_after]. unfold liftR. cbn [np_concatenate_axis1].
  rewrite length_map, length_tab1, Nat.eqb_refl.
  rewrite (map_as_tab1 (coordinates _ _ _) thetas (0, 0, 0)).
  rewrite zip_with_tab1.
  eexists. eexists. eexists.
  split; [reflexivity|]. split; [reflexivity|]. split; [reflexivity|].
  split; [cbn [shape]; now rewrite length_tab1|].
  split; [now apply wf_rows_of_length|].
  intros j Hj. now rewrite !nth_tab1 by assumption.
Qed.

(** *** The time grid *)

(** X15.  The time grid that [create_t_x] returns does not depend on the
    parameters or the seed; it has 200 points, is strictly increasing and
    stays within [-1, 1]. *)
Theorem time_grid_is_ordered
  (theta : ndarray) (c : nat) (seed : option Z) (w : world) :
  seed_ok seed = true ->
  inner_dim theta = Some c -> (3 <= c)%nat ->
  exists t x,
    create_t_x gauss theta seed w = (Ok (Arr1 t, x), world_after seed w)
    /\ t = tab1 200 (fun i => -1 + INR i * (2 / 199))
    /\ length t = 200%nat
    /\ (forall i j, (i < j)%nat -> (j < 200)%nat -> nth i t 0 < nth j t 0)
    /\ (forall i, (i < 200)%nat -> -1 <= nth i t 0 <= 1).
Proof.
  intros Hs Hth Hc.
  destruct (create_t_x_succeeds theta c seed w Hth Hc Hs) as [[t x] [Hrun Ht]].
  cbn [fst] in Ht. subst t.
  exists (tab1 200 grid), x. split; [exact Hrun|].
  split; [apply tab1_ext; intros i _; apply grid_closed_form|].
  split; [apply length_tab1|].
  split.
  - intros i j Hij Hj. rewrite !nth_tab1 by lia.
    rewrite !grid_closed_form. apply lt_INR in Hij. lra.
  - intros i Hi. rewrite nth_tab1 by assumption. rewrite grid_closed_form.
    pose proof (pos_INR i) as H0.
    assert (INR i <= 199) as H199.
    { rewrite <- INR_199. apply le_INR. lia. }
    lra.
Qed.

(** *** A time whose square is out of range *)

(** X16.  When the square of the time overflows binary64 ([|t| >= 2^512]),
    [eval] raises [OverflowError] on every parameter array with at least one
    column: the power is taken after the first column is read and before the
    second, so the error also comes before the [IndexError] of an array with
    one or two columns. *)
Theorem eval_time_out_of_range
  (theta : ndarray) (c : nat) (t : R) (seed : option Z) (w : world) :
  seed_ok seed = true ->
  inner_dim theta = Some c -> (1 <= c)%nat ->
  2 ^ 512 <= Rabs t ->
  eval gauss theta t seed w = (Raise OverflowError, world_after seed w).
Proof.
  intros Hs Hth Hc Ht. apply float_pow_out_of_range in Ht.
  destruct theta as [x|v|c' rows]; cbn [inner_dim] in Hth;
    [discriminate | |]; injection Hth as <-.
  - rewrite eval_vector. now apply eval_out_of_range.
  - now apply eval_out_of_range.
Qed.

End MoreFacts.

(** ** The further properties at concrete inputs *)

Lemma statistics_need_three_columns_witness :
  seed_ok None = true
  /\ inner_dim (Arr2 2 [[1; 2]; [3; 4]]) = Some 2%nat
  /\ (2 < 3)%nat
  /\ inner_dim (Arr1 [0.3; -0.2; -0.1]) = Some 3%nat
  /\ (3 <= 3)%nat
  /\ get_3_values ramp (Arr2 2 [[1; 2]; [3; 4]]) None 0%nat
     = (Raise IndexError, 1%nat)
  /\ get_MSE ramp (batch_of [(1, 2, 3)]) (Arr2 2 [[1; 2]; [3; 4]]) None 0%nat
     = (Raise IndexError, 1%nat)
  /\ get_MSE ramp (Arr2 2 [[1; 2]; [3; 4]]) (Arr1 [0.3; -0.2; -0.1]) None 0%nat
     = (Raise IndexError, 2%nat).
Proof.
  assert (H23 : (2 < 3)%nat) by (apply Nat.lt_succ_diag_r).
  split; [reflexivity|]. split; [reflexivity|]. split; [exact H23|].
  split; [reflexivity|]. split; [apply le_n|].
  exact (statistics_need_three_columns ramp (Arr2 2 [[1; 2]; [3; 4]])
           (batch_of [(1, 2, 3)]) (Arr1 [0.3; -0.2; -0.1]) 2%nat 3%nat
           None 0%nat eq_refl eq_refl H23 eq_refl (le_n 3)).
Defined.

Lemma statistics_ignore_extra_columns_witness :
  seed_ok (Some 7%Z) = true
  /\ inner_dim (Arr2 4 [[1; 2; 3; 4]; [5; 6; 7; 8]]) = Some 4%nat
  /\ (3 <= 4)%nat
  /\ inner_dim (Arr1 [0.3; -0.2; -0.1; 9; 9]) = Some 5%nat
  /\ (3 <= 5)%nat
  /\ get_3_values ramp (Arr2 4 [[1; 2; 3; 4]; [5; 6; 7; 8]]) (Some 7%Z) 0%nat
     = get_3_values ramp (Arr2 3 [[1; 2; 3]; [5; 6; 7]]) (Some 7%Z) 0%nat
  /\ get_MSE ramp (Arr2 4 [[1; 2; 3; 4]; [5; 6; 7; 8]])
       (Arr1 [0.3; -0.2; -0.1; 9; 9]) (Some 7%Z) 0%nat
     = get_MSE ramp (Arr2 3 [[1; 2; 3]; [5; 6; 7]]) (Arr1 [0.3; -0.2; -0.1])
         (Some 7%Z) 0%nat.
Proof.
  assert (H34 : (3 <= 4)%nat) by (apply Nat.le_succ_diag_r).
  assert (H35 : (3 <= 5)%nat) by (do 2 apply le_S; apply le_n).
  split; [reflexivity|]. split; [reflexivity|]. split; [exact H34|].
  split; [reflexivity|]. split; [exact H35|].
  exact (statistics_ignore_extra_columns ramp
           (Arr2 4 [[1; 2; 3; 4]; [5; 6; 7; 8]]) (Arr1 [0.3; -0.2; -0.1; 9; 9])
           4%nat 5%nat (Some 7%Z) 0%nat eq_refl eq_refl H34 eq_refl H35).
Defined.

Lemma bad_seed_is_refused_first_witness :
  seed_ok (Some (-1)%Z) = false
  /\ create_t_x ramp (Arr2 2 [[1; 2]]) (Some (-1)%Z) 0%nat
     = (Raise ValueError, 0%nat)
  /\ eval ramp (Arr2 2 [[1; 2]]) 0.75 (Some (-1)%Z) 0%nat
     = (Raise ValueError, 0%nat)
  /\ get_3_values ramp (Arr2 2 [[1; 2]]) (Some (-1)%Z) 0%nat
     = (Raise ValueError, 0%nat)
  /\ get_MSE ramp (Arr2 2 [[1; 2]]) (Arr1 [0.3; -0.2; -0.1]) (Some (-1)%Z) 0%nat
     = (Raise ValueError, 0%nat).
Proof.
  split; [reflexivity|].
  exact (bad_seed_is_refused_first ramp (Arr2 2 [[1; 2]])
           (Arr1 [0.3; -0.2; -0.1]) 0.75 (-1)%Z 0%nat eq_refl).
Defined.

Lemma zero_dimensional_theta_is_refused_witness :
  seed_ok (Some 7%Z) = true
  /\ inner_dim (Arr1 [0.3; -0.2; -0.1]) = Some 3%nat
  /\ (3 <= 3)%nat
  /\ create_t_x ramp (Scalar 1) (Some 7%Z) 0%nat = (Raise IndexError, 0%nat)
  /\ eval ramp (Scalar 1) 0.75 (Some 7%Z) 0%nat = (Raise IndexError, 0%nat)
  /\ get_3_values ramp (Scalar 1) (Some 7%Z) 0%nat = (Raise IndexError, 0%nat)
  /\ get_MSE ramp (batch_of [(1, 2, 3)]) (Scalar 1) (Some 7%Z) 0%nat
     = (Raise IndexError, 0%nat)
  /\ get_MSE ramp (Scalar 1) (Arr1 [0.3; -0.2; -0.1]) (Some 7%Z) 0%nat
     = (Raise IndexError, 0%nat).
Proof.
  split; [reflexivity|]. split; [reflexivity|]. split; [apply le_n|].
  exact (zero_dimensional_theta_is_refused ramp 1 0.75 (batch_of [(1, 2, 3)])
           (Arr1 [0.3; -0.2; -0.1]) 3%nat (Some 7%Z) 0%nat
           eq_refl eq_refl (le_n 3)).
Defined.

Lemma get_MSE_entries_and_draws_witness :
  seed_ok (Some 7%Z) = true
  /\ exists M,
       get_MSE ramp (batch_of [(1, 2, 3); (0, -1, 0.5)])
         (Arr1 [0.3; -0.2; -0.1]) (Some 7%Z) 0%nat
       = (Ok (Arr2 1 M), 0%nat)
       /\ length M = 2%nat
       /\ nth 1 M []
          = [Rsum (tab1 200
                     (fun i =>
                        (quad3 (0, -1, 0.5) (grid i)
                         + 0.01 * ramp (Seeded 7) (i * 2 + 1)
                         - (quad3 (0.3, -0.2, -0.1) (grid i)
                            + 0.01 * ramp (Seeded 7) i)) ^ 2))
             / 200].
Proof.
  split; [reflexivity|].
  destruct (get_MSE_entries_and_draws ramp [(1, 2, 3); (0, -1, 0.5)]
              (0.3, -0.2, -0.1) (Some 7%Z) 0%nat eq_refl)
    as (M & Hrun & Hlen & Hentry).
  exists M. split; [exact Hrun|]. split; [exact Hlen|].
  apply (Hentry 1%nat). apply Nat.lt_succ_diag_r.
Defined.

Lemma get_MSE_sizes_must_broadcast_witness :
  seed_ok None = true
  /\ length [(1, 2, 3); (0, -1, 0.5)]
     <> length [(0, 0, 0); (1, 1, 1); (0.3, -0.2, -0.1)]
  /\ length [(1, 2, 3); (0, -1, 0.5)] <> 1%nat
  /\ length [(0, 0, 0); (1, 1, 1); (0.3, -0.2, -0.1)] <> 1%nat
  /\ get_MSE ramp (batch_of [(1, 2, 3); (0, -1, 0.5)])
       (batch_of [(0, 0, 0); (1, 1, 1); (0.3, -0.2, -0.1)]) None 0%nat
     = (Raise ValueError, 2%nat).
Proof.
  assert (H23 : length [(1, 2, 3); (0, -1, 0.5)]
                <> length [(0, 0, 0); (1, 1, 1); (0.3, -0.2, -0.1)])
    by (cbn [length]; discriminate).
  assert (H21 : length [(1, 2, 3); (0, -1, 0.5)] <> 1%nat)
    by (cbn [length]; discriminate).
  assert (H31 : length [(0, 0, 0); (1, 1, 1); (0.3, -0.2, -0.1)] <> 1%nat)
    by (cbn [length]; discriminate).
  split; [reflexivity|]. split; [exact H23|]. split; [exact H21|].
  split; [exact H31|].
  exact (get_MSE_sizes_must_broadcast ramp [(1, 2, 3); (0, -1, 0.5)]
           [(0, 0, 0); (1, 1, 1); (0.3, -0.2, -0.1)] None 0%nat
           eq_refl H23 H21 H31).
Defined.

Lemma get_MSE_pairs_equal_batches_witness :
  seed_ok (Some 7%Z) = true
  /\ length [(0, 0, 0); (0.3, -0.2, -0.1)]
     = length [(1, 2, 3); (0, -1, 0.5)]
  /\ exists M,
       get_MSE ramp (batch_of [(1, 2, 3); (0, -1, 0.5)])
         (batch_of [(0, 0, 0); (0.3, -0.2, -0.1)]) (Some 7%Z) 0%nat
       = (Ok (Arr2 1 M), 0%nat)
       /\ length M = 2%nat
       /\ nth 1 M []
          = [Rsum (tab1 200
                     (fun i =>
                        (quad3 (0, -1, 0.5) (grid i)
                         + 0.01 * ramp (Seeded 7) (i * 2 + 1)
                         - (quad3 (0.3, -0.2, -0.1) (grid i)
                            + 0.01 * ramp (Seeded 7) (i * 2 + 1))) ^ 2))
             / 200].
Proof.
  split; [reflexivity|]. split; [reflexivity|].
  destruct (get_MSE_pairs_equal_batches ramp [(1, 2, 3); (0, -1, 0.5)]
              [(0, 0, 0); (0.3, -0.2, -0.1)] (Some 7%Z) 0%nat eq_refl eq_refl)
    as (M & Hrun & Hlen & Hentry & _).
  exists M. split; [exact Hrun|]. split; [exact Hlen|].
  apply (Hentry 1%nat). apply Nat.lt_succ_diag_r.
Defined.

Lemma get_MSE_same_batch_cancels_witness :
  seed_ok (Some 7%Z) = true
  /\ Forall moderate_triple [(1, 2, 3); (0, -1, 0.5)]
  /\ moderate_stream flip
  /\ get_MSE flip (batch_of [(1, 2, 3); (0, -1, 0.5)])
       (batch_of [(1, 2, 3); (0, -1, 0.5)]) (Some 7%Z) 0%nat
     = (Ok (Arr2 1 [[0]; [0]]), 0%nat).
Proof.
  assert (Hth : Forall moderate_triple [(1, 2, 3); (0, -1, 0.5)]).
  { constructor; [apply small_triple_is_moderate; lra|].
    constructor; [apply small_triple_is_moderate; lra|]. constructor. }
  split; [reflexivity|]. split; [exact Hth|].
  split; [exact flip_is_moderate|].
  exact (get_MSE_same_batch_cancels flip [(1, 2, 3); (0, -1, 0.5)] 7%Z 0%nat
           eq_refl Hth flip_is_moderate).
Defined.

Lemma get_MSE_seeded_symmetric_witness :
  seed_ok (Some 7%Z) = true
  /\ get_MSE ramp (Arr1 [0.3; -0.2; -0.1])
       (batch_of [(1, 2, 3); (0, -1, 0.5)]) (Some 7%Z) 0%nat
     = get_MSE ramp (batch_of [(1, 2, 3); (0, -1, 0.5)])
         (Arr1 [0.3; -0.2; -0.1]) (Some 7%Z) 0%nat.
Proof.
  split; [reflexivity|].
  exact (get_MSE_seeded_symmetric ramp [(1, 2, 3); (0, -1, 0.5)]
           (0.3, -0.2, -0.1) 7%Z 0%nat eq_refl).
Defined.

Lemma time_grid_is_ordered_witness :
  seed_ok None = true
  /\ inner_dim (batch_of [(1, 2, 3); (0, -1, 0.5)]) = Some 3%nat
  /\ (3 <= 3)%nat
  /\ exists t x,
       create_t_x ramp (batch_of [(1, 2, 3); (0, -1, 0.5)]) None 4%nat
       = (Ok (Arr1 t, x), 5%nat)
       /\ length t = 200%nat
       /\ nth 3 t 0 < nth 4 t 0
       /\ -1 <= nth 3 t 0 <= 1.
Proof.
  split; [reflexivity|]. split; [reflexivity|]. split; [apply le_n|].
  destruct (time_grid_is_ordered ramp
              (batch_of [(1, 2, 3); (0, -1, 0.5)]) 3%nat None 4%nat
              eq_refl eq_refl (le_n 3))
    as (t & x & Hrun & _ & Hlen & Hinc & Hin).
  exists t, x. split; [exact Hrun|]. split; [exact Hlen|].
  split; [apply (Hinc 3%nat 4%nat); lia | apply (Hin 3%nat); lia].
Defined.

Lemma two_pow_600_out_of_range : 2 ^ 512 <= Rabs (2 ^ 600).
Proof.
  rewrite Rabs_pos_eq by (apply pow_le; lra).
  apply Rle_pow; [lra | lia].
Qed.

Lemma eval_time_out_of_range_witness :
  seed_ok (Some 7%Z) = true
  /\ inner_dim (Arr2 2 [[1; 2]]) = Some 2%nat
  /\ (1 <= 2)%nat
  /\ 2 ^ 512 <= Rabs (2 ^ 600)
  /\ eval ramp (Arr2 2 [[1; 2]]) (2 ^ 600) (Some 7%Z) 0%nat
     = (Raise OverflowError, 0%nat).
Proof.
  assert (H12 : (1 <= 2)%nat) by (apply Nat.le_succ_diag_r).
  split; [reflexivity|]. split; [reflexivity|]. split; [exact H12|].
  split; [exact two_pow_600_out_of_range|].
  exact (eval_time_out_of_range ramp (Arr2 2 [[1; 2]]) 2%nat (2 ^ 600)
           (Some 7%Z) 0%nat eq_refl eq_refl H12 two_pow_600_out_of_range).
Defined.
